(** * Deep-Spying sensor conditioning pipeline: [Sensor.py]

    A shallow embedding of [server/analytics/modules/sensor/Sensor.py]
    (Python 2, numpy, scipy.signal) and the properties of its stages:
    normalisation, axis merge, median / Butterworth / Kalman filtering,
    the [process] driver, and the labelled window export. *)

From Stdlib Require Import FloatOps FloatAxioms.
From Stdlib Require Import ZArith QArith Qfield Lia PrimFloat Uint63 Ascii String Sorted.
From stdpp Require Import base tactics option list strings.

Local Open Scope Z_scope.

(** ** Arithmetic of the samples

    The program computes on numpy [float64] values.  The stages are
    written once over the arithmetic operations they use, and read at
    two instances: IEEE binary64 (the kernel's primitive floats), which
    runs the code as numpy does, and the rationals, which give the
    exact-arithmetic reading of a stage. *)

Class Number (F : Type) := {
  of_Z : Z → F;            (* an integer literal or count used as a sample *)
  add : F → F → F;
  sub : F → F → F;
  mul : F → F → F;
  div : F → F → F;
  is_zero : F → bool       (* [v == 0] *)
}.

Declare Scope num_scope.
Delimit Scope num_scope with num.
Infix "+" := add : num_scope.
Infix "-" := sub : num_scope.
Infix "*" := mul : num_scope.
Infix "/" := div : num_scope.

Definition float_of_Z (z : Z) : float :=
  if z <? 0 then PrimFloat.opp (PrimFloat.of_uint63 (Uint63.of_Z (- z)))
  else PrimFloat.of_uint63 (Uint63.of_Z z).

#[export] Instance float64 : Number float := {
  of_Z := float_of_Z;
  add := PrimFloat.add;
  sub := PrimFloat.sub;
  mul := PrimFloat.mul;
  div := PrimFloat.div;
  is_zero v := PrimFloat.eqb v 0
}.

#[export] Instance exact : Number Q := {
  of_Z := inject_Z;
  add := Qplus;
  sub := Qminus;
  mul := Qmult;
  div := Qdiv;
  is_zero v := Qeq_bool v 0
}.

(** ** Exceptions and results *)

Inductive exception : Type :=
  | IndexError
  | TypeError
  | ValueError
  | AttributeError
  | ZeroDivisionError.

Inductive result (A : Type) : Type :=
  | Ok (a : A)
  | Raise (e : exception).
Arguments Ok {A} a.
Arguments Raise {A} e.

#[export] Instance result_ret : MRet result := λ A a, Ok a.
#[export] Instance result_bind : MBind result := λ A B k r,
  match r with
  | Ok a => k a
  | Raise e => Raise e
  end.

(** Code that mutates an object as it goes: the object is threaded
    through, and survives an exception as it was when it was raised. *)
Definition stateful (S A : Type) : Type := S → result A * S.

#[export] Instance stateful_ret {S} : MRet (stateful S) := λ A a s, (Ok a, s).
#[export] Instance stateful_bind {S} : MBind (stateful S) := λ A B k m s,
  match m s with
  | (Ok a, s') => k a s'
  | (Raise e, s') => (Raise e, s')
  end.

Definition lift {S A} (r : result A) : stateful S A := λ s, (r, s).
Definition read {S A} (f : S → A) : stateful S A := λ s, (Ok (f s), s).
Definition assign {S} (f : S → S) : stateful S unit := λ s, (Ok (), f s).

(** [a[i]] for an index the program keeps non-negative. *)
Definition getitem {A} (a : list A) (i : nat) : result A :=
  match a !! i with
  | Some v => Ok v
  | None => Raise IndexError
  end.

(** [a[i] = v] on a numpy array: out of range raises. *)
Definition setitem {A} (a : list A) (i : nat) (v : A) : result (list A) :=
  if decide (i < length a)%nat then Ok (<[i := v]> a) else Raise IndexError.

(** [for i in range(lo, hi): body]. *)
Fixpoint for_range_from {S} (lo count : nat) (body : nat → stateful S unit)
    : stateful S unit :=
  match count with
  | O => mret ()
  | Datatypes.S count' => body lo ;; for_range_from (Datatypes.S lo) count' body
  end.

Definition for_range {S} (lo hi : nat) (body : nat → stateful S unit)
    : stateful S unit :=
  for_range_from lo (hi - lo) body.

(** An operand of float arithmetic read from an attribute that may
    still hold [None]. *)
Definition operand {A} (o : option A) : result A :=
  match o with
  | Some v => Ok v
  | None => Raise TypeError
  end.

(** [a / b] on plain Python floats: a zero divisor raises.  (numpy's
    [float64] scalars divide as IEEE does instead, which is [div].) *)
Definition truediv {F} `{Number F} (a b : F) : result F :=
  if is_zero b then Raise ZeroDivisionError else Ok (a / b)%num.

(** ** Python slices *)

(** A slice bound as [data[start:stop]] resolves it against [len(data)]:
    a negative bound counts from the end, and every bound is clipped
    into [0, len]. *)
Definition slice_bound (n i : Z) : Z :=
  if i <? 0 then Z.max 0 (i + n) else Z.min i n.

Definition py_slice {A} (data : list A) (start stop : Z) : list A :=
  let n := Z.of_nat (length data) in
  let lo := slice_bound n start in
  let hi := slice_bound n stop in
  take (Z.to_nat (hi - lo)) (drop (Z.to_nat lo) data).

(** ** numpy on [int64] timestamps *)

Definition wrap64 (v : Z) : Z := (v + 2 ^ 63) `mod` 2 ^ 64 - 2 ^ 63.

(** [np.abs] on [int64]. *)
Definition np_abs (v : Z) : Z := wrap64 (Z.abs v).

Fixpoint argmin_from (best_index : nat) (best : Z) (i : nat) (a : list Z)
    : nat :=
  match a with
  | [] => best_index
  | v :: a' =>
      if v <? best then argmin_from i v (S i) a'
      else argmin_from best_index best (S i) a'
  end.

(** [a.argmin()]: the first index of the least element. *)
Definition argmin (a : list Z) : result Z :=
  match a with
  | [] => Raise ValueError
  | v :: a' => Ok (Z.of_nat (argmin_from 0 v 1 a'))
  end.

Definition newline : string := String "010"%char EmptyString.

(** ** The collaborators outside the source file *)

(** [scipy.signal], [utils.UMath] (not among the sources) and the
    float formatting of [str.format]: the program only calls them. *)
Class Library (F : Type) := {
  medfilt : list F → Z → result (list F);
  butter : Z → F → string → bool → result (list F * list F);
  lfilter : list F → list F → list F → result (list F);
  get_frequency : F → result F;
  format_float : F → string
}.

(** What a view is asked to draw. *)
Inductive view_call (F : Type) : Type :=
  | plot_sensor_data (title : string) (timestamp : list Z) (x y z : list F)
  | plot_signal (title : string) (timestamp : list Z) (signal : list F)
  | show.
Arguments plot_sensor_data {F}.
Arguments plot_signal {F}.
Arguments show {F}.

(** ** class Sensor *)

(** The attributes of a [Sensor].  [view] is [None] or the calls the
    view has received so far; [mean] is the attribute that [normalize]
    creates, absent before. *)
Record Sensor (F : Type) : Type := {
  timestamp : list Z;
  x : list F;
  y : list F;
  z : list F;
  view : option (list (view_call F));
  name : string;
  sampling_rate : option F;
  filter_type : option string;
  median_filter_window_size : option Z;
  process_variance_q : option F;
  measurement_variance_estimate : option F;
  mean_signal : option (list F);
  mean : option F
}.
Arguments timestamp {F}.
Arguments x {F}.
Arguments y {F}.
Arguments z {F}.
Arguments view {F}.
Arguments name {F}.
Arguments sampling_rate {F}.
Arguments filter_type {F}.
Arguments median_filter_window_size {F}.
Arguments process_variance_q {F}.
Arguments measurement_variance_estimate {F}.
Arguments mean_signal {F}.
Arguments mean {F}.

Section SensorMethods.
Context {F : Type} {num : Number F} {lib : Library F}.

Abbreviation Sensor := (Sensor F).
Abbreviation method := (stateful Sensor).

(** Attribute assignment, one function per attribute the methods
    assign. *)
Definition set_x (v : list F) (self : Sensor) : Sensor :=
  {| timestamp := timestamp self; x := v; y := y self; z := z self;
     view := view self; name := name self;
     sampling_rate := sampling_rate self; filter_type := filter_type self;
     median_filter_window_size := median_filter_window_size self;
     process_variance_q := process_variance_q self;
     measurement_variance_estimate := measurement_variance_estimate self;
     mean_signal := mean_signal self; mean := mean self |}.

Definition set_y (v : list F) (self : Sensor) : Sensor :=
  {| timestamp := timestamp self; x := x self; y := v; z := z self;
     view := view self; name := name self;
     sampling_rate := sampling_rate self; filter_type := filter_type self;
     median_filter_window_size := median_filter_window_size self;
     process_variance_q := process_variance_q self;
     measurement_variance_estimate := measurement_variance_estimate self;
     mean_signal := mean_signal self; mean := mean self |}.

Definition set_z (v : list F) (self : Sensor) : Sensor :=
  {| timestamp := timestamp self; x := x self; y := y self; z := v;
     view := view self; name := name self;
     sampling_rate := sampling_rate self; filter_type := filter_type self;
     median_filter_window_size := median_filter_window_size self;
     process_variance_q := process_variance_q self;
     measurement_variance_estimate := measurement_variance_estimate self;
     mean_signal := mean_signal self; mean := mean self |}.

Definition set_view (v : option (list (view_call F))) (self : Sensor)
    : Sensor :=
  {| timestamp := timestamp self; x := x self; y := y self; z := z self;
     view := v; name := name self;
     sampling_rate := sampling_rate self; filter_type := filter_type self;
     median_filter_window_size := median_filter_window_size self;
     process_variance_q := process_variance_q self;
     measurement_variance_estimate := measurement_variance_estimate self;
     mean_signal := mean_signal self; mean := mean self |}.

Definition set_mean_signal (v : option (list F)) (self : Sensor) : Sensor :=
  {| timestamp := timestamp self; x := x self; y := y self; z := z self;
     view := view self; name := name self;
     sampling_rate := sampling_rate self; filter_type := filter_type self;
     median_filter_window_size := median_filter_window_size self;
     process_variance_q := process_variance_q self;
     measurement_variance_estimate := measurement_variance_estimate self;
     mean_signal := v; mean := mean self |}.

Definition set_mean (v : option F) (self : Sensor) : Sensor :=
  {| timestamp := timestamp self; x := x self; y := y self; z := z self;
     view := view self; name := name self;
     sampling_rate := sampling_rate self; filter_type := filter_type self;
     median_filter_window_size := median_filter_window_size self;
     process_variance_q := process_variance_q self;
     measurement_variance_estimate := measurement_variance_estimate self;
     mean_signal := mean_signal self; mean := v |}.

(** *** numpy helpers *)

Definition np_zeros (length : nat) : list F := replicate length (of_Z 0).

(** The sum of a 1-D [float64] array as [np.add.reduce] computes it
    (pairwise summation, numpy 1.9 to 1.16, the releases for Python 2).
    Fewer than 8 values are added left to right, starting from 0.
    Up to [PW_BLOCKSIZE] values go to 8 running sums, [r[j] += a[i + j]]
    for each further group of 8; the 8 sums are added as a tree and the
    values left over (fewer than 8) one by one.  A longer array is cut
    in two, at a multiple of 8, and the sums of the halves are added. *)
Definition PW_BLOCKSIZE : nat := 128.

Definition octet : Type := F * F * F * F * F * F * F * F.

Fixpoint unrolled_sum (r : octet) (a : list F) : F :=
  let '(r0, r1, r2, r3, r4, r5, r6, r7) := r in
  match a with
  | a0 :: a1 :: a2 :: a3 :: a4 :: a5 :: a6 :: a7 :: a' =>
      unrolled_sum (r0 + a0, r1 + a1, r2 + a2, r3 + a3,
                    r4 + a4, r5 + a5, r6 + a6, r7 + a7)%num a'
  | _ =>
      foldl add (((r0 + r1) + (r2 + r3)) + ((r4 + r5) + (r6 + r7)))%num a
  end.

(** [depth] bounds the number of cuts; [length a] cuts are never
    needed. *)
Fixpoint pairwise_sum_within (depth : nat) (a : list F) : F :=
  match a with
  | a0 :: a1 :: a2 :: a3 :: a4 :: a5 :: a6 :: a7 :: a' =>
      if decide (length a ≤ PW_BLOCKSIZE)%nat then
        unrolled_sum (a0, a1, a2, a3, a4, a5, a6, a7) a'
      else
        match depth with
        | Datatypes.S depth' =>
            let n2 := (length a / 2)%nat in
            let n2 := (n2 - n2 `mod` 8)%nat in
            (pairwise_sum_within depth' (take n2 a)
             + pairwise_sum_within depth' (drop n2 a))%num
        | O => of_Z 0
        end
  | _ => foldl add (of_Z 0) a
  end.

Definition pairwise_sum (a : list F) : F :=
  pairwise_sum_within (length a) a.

(** [np.add.reduce(a)]: the sum is added to the identity of the
    reduction. *)
Definition np_sum (a : list F) : F := (of_Z 0 + pairwise_sum a)%num.

(** [np.mean] of a 1-D sequence: the sum over the count. *)
Definition np_mean (a : list F) : F :=
  (np_sum a / of_Z (Z.of_nat (length a)))%num.

(** *** plot *)

Definition plot (title : string) : method unit :=
  self ← read id;
  let title := name self +:+ " " +:+ title in
  match view self with
  | Some calls =>
      match mean_signal self with
      | None =>
          assign (set_view (Some (calls ++
            [plot_sensor_data title (timestamp self)
               (x self) (y self) (z self)])))
      | Some signal =>
          assign (set_view (Some (calls ++
            [plot_signal title (timestamp self) signal])))
      end
  | None => mret ()
  end.

(** *** apply_median_filter *)

Definition apply_median_filter (window_size : Z) : method unit :=
  m ← read mean_signal;
  match m with
  | None =>
      a ← read x; r ← lift (medfilt a window_size); assign (set_x r);;
      a ← read y; r ← lift (medfilt a window_size); assign (set_y r);;
      a ← read z; r ← lift (medfilt a window_size); assign (set_z r)
  | Some signal =>
      r ← lift (medfilt signal window_size);
      assign (set_mean_signal (Some r))
  end.

(** *** apply_butter_filter *)

(** The literal [0.5], exact on binary64 and over the rationals. *)
Definition half : F := (of_Z 1 / of_Z 2)%num.

Definition CUTOFF_FREQUENCY : F := half.

(** [frequency] is a plain Python number, so the division is Python's. *)
Definition normal_cutoff (frequency : F) : result F :=
  let critical := (half * frequency)%num in
  truediv CUTOFF_FREQUENCY critical.

Definition default_order : Z := 6.

Definition apply_butter_filter (data : list F) (frequency : F)
    (type : string) (order : Z) : result (list F) :=
  normal_cutoff ← normal_cutoff frequency;
  '(b, a) ← butter order normal_cutoff type false;
  lfilter b a data.

(** *** apply_filter *)

Definition apply_filter (sampling_frequency : F) (filter_type : string)
    : method unit :=
  m ← read mean_signal;
  match m with
  | None =>
      a ← read x;
      r ← lift (apply_butter_filter a sampling_frequency filter_type
                  default_order);
      assign (set_x r);;
      a ← read y;
      r ← lift (apply_butter_filter a sampling_frequency filter_type
                  default_order);
      assign (set_y r);;
      a ← read z;
      r ← lift (apply_butter_filter a sampling_frequency filter_type
                  default_order);
      assign (set_z r)
  | Some signal =>
      r ← lift (apply_butter_filter signal sampling_frequency filter_type
                  default_order);
      assign (set_mean_signal (Some r))
  end.

(** *** get_kalman_filter_estimate *)

(** The five work arrays of the estimator. *)
Record kalman_arrays : Type := {
  a_posteriori_estimate : list F;
  a_posteriori_error_estimate : list F;
  a_priori_estimate : list F;
  a_priori_error_estimate : list F;
  blending_factor_gain : list F
}.

Definition kalman_zeros (length : nat) : kalman_arrays :=
  {| a_posteriori_estimate := np_zeros length;
     a_posteriori_error_estimate := np_zeros length;
     a_priori_estimate := np_zeros length;
     a_priori_error_estimate := np_zeros length;
     blending_factor_gain := np_zeros length |}.

Definition set_a_posteriori_estimate (i : nat) (v : F)
    : stateful kalman_arrays unit := λ k,
  match setitem (a_posteriori_estimate k) i v with
  | Ok a =>
      (Ok (),
       {| a_posteriori_estimate := a;
          a_posteriori_error_estimate := a_posteriori_error_estimate k;
          a_priori_estimate := a_priori_estimate k;
          a_priori_error_estimate := a_priori_error_estimate k;
          blending_factor_gain := blending_factor_gain k |})
  | Raise e => (Raise e, k)
  end.

Definition set_a_posteriori_error_estimate (i : nat) (v : F)
    : stateful kalman_arrays unit := λ k,
  match setitem (a_posteriori_error_estimate k) i v with
  | Ok a =>
      (Ok (),
       {| a_posteriori_estimate := a_posteriori_estimate k;
          a_posteriori_error_estimate := a;
          a_priori_estimate := a_priori_estimate k;
          a_priori_error_estimate := a_priori_error_estimate k;
          blending_factor_gain := blending_factor_gain k |})
  | Raise e => (Raise e, k)
  end.

Definition set_a_priori_estimate (i : nat) (v : F)
    : stateful kalman_arrays unit := λ k,
  match setitem (a_priori_estimate k) i v with
  | Ok a =>
      (Ok (),
       {| a_posteriori_estimate := a_posteriori_estimate k;
          a_posteriori_error_estimate := a_posteriori_error_estimate k;
          a_priori_estimate := a;
          a_priori_error_estimate := a_priori_error_estimate k;
          blending_factor_gain := blending_factor_gain k |})
  | Raise e => (Raise e, k)
  end.

Definition set_a_priori_error_estimate (i : nat) (v : F)
    : stateful kalman_arrays unit := λ k,
  match setitem (a_priori_error_estimate k) i v with
  | Ok a =>
      (Ok (),
       {| a_posteriori_estimate := a_posteriori_estimate k;
          a_posteriori_error_estimate := a_posteriori_error_estimate k;
          a_priori_estimate := a_priori_estimate k;
          a_priori_error_estimate := a;
          blending_factor_gain := blending_factor_gain k |})
  | Raise e => (Raise e, k)
  end.

Definition set_blending_factor_gain (i : nat) (v : F)
    : stateful kalman_arrays unit := λ k,
  match setitem (blending_factor_gain k) i v with
  | Ok a =>
      (Ok (),
       {| a_posteriori_estimate := a_posteriori_estimate k;
          a_posteriori_error_estimate := a_posteriori_error_estimate k;
          a_priori_estimate := a_priori_estimate k;
          a_priori_error_estimate := a_priori_error_estimate k;
          blending_factor_gain := a |})
  | Raise e => (Raise e, k)
  end.

(** [array[i]] read from one of the work arrays. *)
Definition get (array : kalman_arrays → list F) (i : nat)
    : stateful kalman_arrays F := λ k, (getitem (array k) i, k).

(** The body of the loop, statement by statement. *)
Definition kalman_step (self : Sensor) (data : list F) (i : nat)
    : stateful kalman_arrays unit :=
  v ← get a_posteriori_estimate (i - 1);
  set_a_priori_estimate i v;;
  e ← get a_posteriori_error_estimate (i - 1);
  q ← lift (operand (process_variance_q self));
  set_a_priori_error_estimate i (e + q)%num;;

  p ← get a_priori_error_estimate i;
  p' ← get a_priori_error_estimate i;
  r ← lift (operand (measurement_variance_estimate self));
  set_blending_factor_gain i (p / (p' + r))%num;;

  a ← get a_priori_estimate i;
  g ← get blending_factor_gain i;
  d ← lift (getitem data i);
  a' ← get a_priori_estimate i;
  set_a_posteriori_estimate i (a + g * (d - a'))%num;;
  g ← get blending_factor_gain i;
  p ← get a_priori_error_estimate i;
  set_a_posteriori_error_estimate i ((of_Z 1 - g) * p)%num.

(** The whole run, with the work arrays it ends on. *)
Definition kalman_run (self : Sensor) (data : list F)
    : stateful kalman_arrays unit :=
  let length := length data in
  set_a_posteriori_estimate 0 (of_Z 0);;
  set_a_posteriori_error_estimate 0 (of_Z 1);;
  for_range 1 length (kalman_step self data).

Definition get_kalman_filter_estimate (self : Sensor) (data : list F)
    : result (list F) :=
  match kalman_run self data (kalman_zeros (length data)) with
  | (Ok _, k) => Ok (a_posteriori_estimate k)
  | (Raise e, _) => Raise e
  end.

(** *** apply_kalman_filter *)

Definition apply_kalman_filter : method unit :=
  m ← read mean_signal;
  match m with
  | None =>
      self ← read id; r ← lift (get_kalman_filter_estimate self (x self));
      assign (set_x r);;
      self ← read id; r ← lift (get_kalman_filter_estimate self (y self));
      assign (set_y r);;
      self ← read id; r ← lift (get_kalman_filter_estimate self (z self));
      assign (set_z r)
  | Some signal =>
      self ← read id; r ← lift (get_kalman_filter_estimate self signal);
      assign (set_mean_signal (Some r))
  end.

(** *** normalize *)

Definition normalize_axis (value : F) : method F :=
  m ← read mean;
  match m with
  | Some mean => mret (value - mean)%num
  | None => lift (Raise AttributeError)
  end.

(** [map] is Python 2's: it builds the list at once. *)
Definition normalize : method unit :=
  a ← read x; assign (set_mean (Some (np_mean a)));;
  a ← read x; r ← mapM normalize_axis a; assign (set_x r);;

  a ← read y; assign (set_mean (Some (np_mean a)));;
  a ← read y; r ← mapM normalize_axis a; assign (set_y r);;

  a ← read z; assign (set_mean (Some (np_mean a)));;
  a ← read z; r ← mapM normalize_axis a; assign (set_z r).

(** *** get_mean_signal *)

Definition mean_step (self : Sensor) (i : nat) : stateful (list F) unit :=
  xi ← lift (getitem (x self) i);
  yi ← lift (getitem (y self) i);
  zi ← lift (getitem (z self) i);
  mean ← read id;
  mean' ← lift (setitem mean i ((xi + yi + zi) / of_Z 3)%num);
  assign (λ _, mean').

Definition get_mean_signal (self : Sensor) : result (list F) :=
  let length := length (x self) in
  match for_range 0 length (mean_step self) (np_zeros length) with
  | (Ok _, mean) => Ok mean
  | (Raise e, _) => Raise e
  end.

(** *** process *)

Definition view_show : method unit :=
  v ← read view;
  match v with
  | Some calls => assign (set_view (Some (calls ++ [show])))
  | None => mret ()
  end.

Definition process (merge_axis : bool) : method unit :=
  plot "raw";;

  normalize;;
  plot "normalize";;

  (if merge_axis then
     self ← read id; m ← lift (get_mean_signal self);
     assign (set_mean_signal (Some m))
   else mret ());;

  w ← read median_filter_window_size;
  match w with
  | Some window_size =>
      apply_median_filter window_size;;
      plot "median filter"
  | None => mret ()
  end;;

  s ← read sampling_rate;
  t ← read filter_type;
  match s, t with
  | Some rate, Some type =>
      f ← lift (get_frequency rate);
      apply_filter f type;;
      plot (type +:+ " filter")
  | _, _ => mret ()
  end;;

  apply_kalman_filter;;
  plot "kalman filter";;

  view_show.

(** *** label_segmentation *)

(** [output_file.write(line)]: the file is the text written so far. *)
Definition write (line : string) : stateful (list string) unit :=
  assign (λ file, file ++ [line]).

Definition center_timestamp_index (self : Sensor) (label_timestamp : Z)
    : result Z :=
  argmin (np_abs <$> ((λ t, wrap64 (t - label_timestamp)) <$> timestamp self)).

(** [get_data_slice(self, data, center_index, window_size=100)];
    [window_size / 2] is Python 2 integer division. *)
Definition get_data_slice (data : list F) (center_index : Z)
    (window_size : Z) : list F :=
  let left_samples :=
    py_slice data (center_index - (window_size `div` 2)) center_index in
  let right_samples :=
    py_slice data center_index (center_index + (window_size `div` 2)) in
  left_samples ++ right_samples.

Definition default_window_size : Z := 100.

(** ["{},{},{}\n".format(xj, yj, zj)] *)
Definition sample_line (xj yj zj : F) : string :=
  format_float xj +:+ "," +:+ format_float yj +:+ "," +:+ format_float zj
  +:+ newline.

Definition write_sample (x_sample y_sample z_sample : list F) (j : nat)
    : stateful (list string) unit :=
  xj ← lift (getitem x_sample j);
  yj ← lift (getitem y_sample j);
  zj ← lift (getitem z_sample j);
  let line := sample_line xj yj zj in
  write line.

Definition write_label (self : Sensor) (label_timestamps : list Z)
    (labels : list string) (i : nat) : stateful (list string) unit :=
  t ← lift (getitem label_timestamps i);
  center_timestamp_index ← lift (center_timestamp_index self t);

  let x_sample :=
    get_data_slice (x self) center_timestamp_index default_window_size in
  let y_sample :=
    get_data_slice (y self) center_timestamp_index default_window_size in
  let z_sample :=
    get_data_slice (z self) center_timestamp_index default_window_size in

  label ← lift (getitem labels i);
  write ("label " +:+ label +:+ newline);;
  write ("x,y,z" +:+ newline);;

  for_range 0 (length x_sample) (write_sample x_sample y_sample z_sample);;

  write newline.

(** The text the call leaves in [../data/<session_id>_samples.csv],
    which it opens empty, and how the call ends. *)
Definition label_segmentation (self : Sensor) (session_id : string)
    (label_timestamps : list Z) (labels : list string)
    : result unit * list string :=
  for_range 0 (length label_timestamps)
    (write_label self label_timestamps labels) [].

End SensorMethods.

Arguments kalman_arrays F : clear implicits.

(** ** Specification-side definitions

    The notions that the statements below are phrased with: the
    recursion of the estimator, the centred axis, the lines of an
    exported block, the filtering stages and the stage order of the
    spec. *)

(** The three filtering stages. *)
Inductive filter (F : Type) : Type :=
  | MedianFilter (window_size : Z)
  | BandFilter (sampling_frequency : F) (filter_type : string)
  | KalmanFilter.
Arguments MedianFilter {F}.
Arguments BandFilter {F}.
Arguments KalmanFilter {F}.

(** The stages of the conditioning pipeline, as the spec names them. *)
Inductive stage (F : Type) : Type :=
  | Normalizer
  | Merger
  | MedianSmoother (window_size : Z)
  | BandFilterStage (sampling_rate : F) (filter_type : string)
  | KalmanEstimator.
Arguments Normalizer {F}.
Arguments Merger {F}.
Arguments MedianSmoother {F}.
Arguments BandFilterStage {F}.
Arguments KalmanEstimator {F}.

(** The place of a stage in the order of the spec. *)
Definition rank {F : Type} (s : stage F) : nat :=
  match s with
  | Normalizer => 0
  | Merger => 1
  | MedianSmoother _ => 2
  | BandFilterStage _ _ => 3
  | KalmanEstimator => 4
  end.

Section Specification.
Context {F : Type} {num : Number F} {lib : Library F}.

(** The recursion of the estimator at index [i], in the spec's words. *)
Definition kalman_recursion (q r : F) (data estimate error : list F)
    (i : nat) : Prop :=
  ∃ e p d,
    estimate !! (i - 1)%nat = Some e ∧
    error !! (i - 1)%nat = Some p ∧
    data !! i = Some d ∧
    let a_priori_error := (p + q)%num in
    let gain := (a_priori_error / (a_priori_error + r))%num in
    estimate !! i = Some (e + gain * (d - e))%num ∧
    error !! i = Some ((of_Z 1 - gain) * a_priori_error)%num.

(** The recursion as a function: from the estimate and the error at
    one index, and the next sample, to the estimate and the error at the
    next index. *)
Definition kalman_next (q r : F) (state : F * F) (d : F) : F * F :=
  let '(e, p) := state in
  let a_priori_error := (p + q)%num in
  let gain := (a_priori_error / (a_priori_error + r))%num in
  ((e + gain * (d - e))%num, ((of_Z 1 - gain) * a_priori_error)%num).

Fixpoint kalman_states (q r : F) (state : F * F) (data : list F)
    : list (F * F) :=
  match data with
  | [] => []
  | d :: data' =>
      let state' := kalman_next q r state d in
      state' :: kalman_states q r state' data'
  end.

(** Estimate 0 and error 1 at index 0, whatever the first sample, and
    the recursion from there on. *)
Definition recursion_states (q r : F) (data : list F) : list (F * F) :=
  match data with
  | [] => []
  | _ :: data' =>
      (of_Z 0, of_Z 1) :: kalman_states q r (of_Z 0, of_Z 1) data'
  end.

Definition recursion_estimate (q r : F) (data : list F) : list F :=
  fst <$> recursion_states q r data.

Definition recursion_error (q r : F) (data : list F) : list F :=
  snd <$> recursion_states q r data.

(** What one pass of the loop body leaves in the work arrays. *)
Definition kalman_update (q r : F) (data : list F) (i : nat)
    (k : kalman_arrays F) : option (kalman_arrays F) :=
  e ← a_posteriori_estimate k !! (i - 1)%nat;
  p ← a_posteriori_error_estimate k !! (i - 1)%nat;
  d ← data !! i;
  let ape := (p + q)%num in
  let gain := (ape / (ape + r))%num in
  Some {| a_posteriori_estimate :=
            <[i := (e + gain * (d - e))%num]> (a_posteriori_estimate k);
          a_posteriori_error_estimate :=
            <[i := ((of_Z 1 - gain) * ape)%num]>
              (a_posteriori_error_estimate k);
          a_priori_estimate := <[i := e]> (a_priori_estimate k);
          a_priori_error_estimate := <[i := ape]> (a_priori_error_estimate k);
          blending_factor_gain := <[i := gain]> (blending_factor_gain k) |}.

Definition kalman_lengths (n : nat) (k : kalman_arrays F) : Prop :=
  length (a_posteriori_estimate k) = n ∧
  length (a_posteriori_error_estimate k) = n ∧
  length (a_priori_estimate k) = n ∧
  length (a_priori_error_estimate k) = n ∧
  length (blending_factor_gain k) = n.

(** The loop invariant of the estimator before iteration [j]. *)
Definition kalman_invariant (q r : F) (data : list F) (j : nat)
    (k : kalman_arrays F) : Prop :=
  kalman_lengths (length data) k ∧
  a_posteriori_estimate k !! 0%nat = Some (of_Z 0) ∧
  a_posteriori_error_estimate k !! 0%nat = Some (of_Z 1) ∧
  ∀ i, (1 ≤ i < j)%nat →
    kalman_recursion q r data (a_posteriori_estimate k)
      (a_posteriori_error_estimate k) i.

(** The loop invariant of the merge before iteration [j]. *)
Definition mean_invariant (self : Sensor F) (j : nat) (mean : list F)
    : Prop :=
  length mean = length (x self) ∧
  ∀ i xi yi zi, (i < j)%nat →
    x self !! i = Some xi → y self !! i = Some yi → z self !! i = Some zi →
    mean !! i = Some ((xi + yi + zi) / of_Z 3)%num.

(** An axis with its own mean taken off every sample. *)
Definition centered (a : list F) : list F :=
  (λ value, value - np_mean a)%num <$> a.

(** The sensor that [normalize] leaves. *)
Definition normalized (self : Sensor F) : Sensor F :=
  set_z (centered (z self))
    (set_mean (Some (np_mean (z self)))
       (set_y (centered (y self))
          (set_x (centered (x self)) self))).

(** The sample lines of a block, in the order they are written. *)
Fixpoint sample_lines (x_sample y_sample z_sample : list F) : list string :=
  match x_sample, y_sample, z_sample with
  | xj :: xs, yj :: ys, zj :: zs =>
      sample_line xj yj zj :: sample_lines xs ys zs
  | _, _, _ => []
  end.

Definition run_filter (f : filter F) : stateful (Sensor F) unit :=
  match f with
  | MedianFilter window_size => apply_median_filter window_size
  | BandFilter sampling_frequency filter_type =>
      apply_filter sampling_frequency filter_type
  | KalmanFilter => apply_kalman_filter
  end.

(** What a filtering stage computes from the merged signal. *)
Definition filtered (f : filter F) (self : Sensor F) (signal : list F)
    : result (list F) :=
  match f with
  | MedianFilter window_size => medfilt signal window_size
  | BandFilter sampling_frequency filter_type =>
      apply_butter_filter signal sampling_frequency filter_type default_order
  | KalmanFilter => get_kalman_filter_estimate self signal
  end.

(** What a stage does to the sensor. *)
Definition run_stage (s : stage F) : stateful (Sensor F) unit :=
  match s with
  | Normalizer => normalize
  | Merger =>
      self ← read id; m ← lift (get_mean_signal self);
      assign (set_mean_signal (Some m))
  | MedianSmoother window_size => apply_median_filter window_size
  | BandFilterStage rate type =>
      f ← lift (get_frequency rate); apply_filter f type
  | KalmanEstimator => apply_kalman_filter
  end.

(** The notification of the view that follows a stage; merging has
    none. *)
Definition notify (s : stage F) : stateful (Sensor F) unit :=
  match s with
  | Normalizer => plot "normalize"
  | Merger => mret ()
  | MedianSmoother _ => plot "median filter"
  | BandFilterStage _ type => plot (type +:+ " filter")
  | KalmanEstimator => plot "kalman filter"
  end.

(** Stages run in order, each followed by its notification; the first
    exception ends the run. *)
Fixpoint run_stages (stages : list (stage F)) : stateful (Sensor F) unit :=
  match stages with
  | [] => mret ()
  | s :: stages' => run_stage s;; notify s;; run_stages stages'
  end.

(** The stages that a call selects: the flag and the configuration
    fields switch the optional ones on. *)
Definition pipeline (merge_axis : bool) (self : Sensor F) : list (stage F) :=
  [Normalizer]
  ++ (if merge_axis then [Merger] else [])
  ++ match median_filter_window_size self with
     | Some window_size => [MedianSmoother window_size]
     | None => []
     end
  ++ match sampling_rate self, filter_type self with
     | Some rate, Some type => [BandFilterStage rate type]
     | _, _ => []
     end
  ++ [KalmanEstimator].

(** The configuration fields that [process] consults. *)
Definition configuration (self : Sensor F)
    : option Z * option F * option string :=
  (median_filter_window_size self, sampling_rate self, filter_type self).

End Specification.

(** The arithmetic mean in the spec's words, in exact arithmetic: the
    total of the samples over their number. *)
Definition total (a : list Q) : Q := foldr Qplus 0%Q a.

Definition arithmetic_mean (a : list Q) : Q :=
  (total a / inject_Z (Z.of_nat (length a)))%Q.

(** ** Concrete inputs *)

(** Collaborators that accept every request and hand the data back,
    to run the methods on concrete recordings. *)
Definition stand_in {F : Type} {num : Number F} : Library F := {|
  medfilt a window_size := Ok a;
  butter order cutoff type analog := Ok ([of_Z 1], [of_Z 1]);
  lfilter b a data := Ok data;
  get_frequency rate := Ok rate;
  format_float value := "0.0"%string
|}.

(** Collaborators whose design routine checks the critical frequency
    of a digital filter as [scipy.signal.butter] does, refusing it
    outside (0, 1), and hands back fixed coefficients otherwise. *)
Definition range_checked : Library float := {|
  medfilt a window_size := Ok a;
  butter order Wn btype analog :=
    if negb analog && (PrimFloat.leb Wn 0 || PrimFloat.leb 1 Wn)
    then Raise ValueError
    else Ok ([1%float], [1%float]);
  lfilter b a data := Ok data;
  get_frequency rate := Ok rate;
  format_float value := "0.0"%string
|}.

Definition at_rest (x y z : list float) (q r : option float) : Sensor float :=
  {| timestamp := []; x := x; y := y; z := z; view := None;
     name := EmptyString;
     sampling_rate := None; filter_type := None;
     median_filter_window_size := None;
     process_variance_q := q; measurement_variance_estimate := r;
     mean_signal := None; mean := None |}.

Definition merged (signal x y z : list float) : Sensor float :=
  set_mean_signal (Some signal)
    (at_rest x y z (Some 0.5%float) (Some 1%float)).

Definition exact_sensor (x y z : list Q) : Sensor Q :=
  {| timestamp := []; x := x; y := y; z := z; view := None;
     name := EmptyString;
     sampling_rate := None; filter_type := None;
     median_filter_window_size := None;
     process_variance_q := None; measurement_variance_estimate := None;
     mean_signal := None; mean := None |}.

Definition ramp (n : nat) : list Z := Z.of_nat <$> seq 0 n.

(** [n] samples at rest, stamped 60, 61, ...: the stamp 100 is at
    index 40. *)
Definition recording (n : nat) : Sensor float :=
  {| timestamp := (λ i, 60 + i) <$> ramp n;
     x := replicate n 0%float; y := replicate n 0%float;
     z := replicate n 0%float;
     view := None; name := "acc";
     sampling_rate := None; filter_type := None;
     median_filter_window_size := None;
     process_variance_q := Some 0.5%float;
     measurement_variance_estimate := Some 1%float;
     mean_signal := None; mean := None |}.

(** ** Further methods *)

(** The collaborator of the automatic segmentation, [PeakAnalysis]
    (not among the sources): the program only calls its [segment]. *)
Class PeakAnalysis (F : Type) := {
  segment : list F → bool → result unit
}.

Section Segmentation.
Context {F : Type} {num : Number F} {lib : Library F} {peaks : PeakAnalysis F}.

(** *** automatic_segmentation *)

Definition automatic_segmentation : stateful (Sensor F) unit :=
  self ← read id; m ← lift (get_mean_signal self);
  assign (set_mean_signal (Some m));;

  m ← read mean_signal;
  match m with
  | Some signal => lift (segment signal true)
  | None => lift (Raise TypeError)
  end.

End Segmentation.

(** *** __init__ *)

Fixpoint find_from (c : ascii) (s : list ascii) (i : Z) : Z :=
  match s with
  | [] => -1
  | a :: s' => if decide (a = c) then i else find_from c s' (i + 1)
  end.

(** [s.find(c)] for a one-character [c]: the first index, or -1. *)
Definition find (s : list ascii) (c : ascii) : Z := find_from c s 0.

Fixpoint rfind_from (c : ascii) (s : list ascii) (i last : Z) : Z :=
  match s with
  | [] => last
  | a :: s' => rfind_from c s' (i + 1) (if decide (a = c) then i else last)
  end.

(** [s.rfind(c)]: the last index, or -1. *)
Definition rfind (s : list ascii) (c : ascii) : Z := rfind_from c s 0 (-1).

(** [posixpath.basename(p)]: [i = p.rfind('/') + 1; return p[i:]]. *)
Definition basename (p : list ascii) : list ascii :=
  let i := rfind p "/"%char + 1 in
  py_slice p i (Z.of_nat (length p)).

(** [file_name[file_name.find("_") + 1:file_name.find(".")]] *)
Definition sensor_name (file_path : string) : string :=
  let file_name := basename (list_ascii_of_string file_path) in
  string_of_list_ascii
    (py_slice file_name (find file_name "_"%char + 1)
       (find file_name "."%char)).

(** [__init__], from the four columns that [np.genfromtxt] read. *)
Definition init {F : Type} (timestamp : list Z) (x y z : list F)
    (file_path : string) (view : option (list (view_call F))) : Sensor F :=
  {| timestamp := timestamp; x := x; y := y; z := z;
     view := view;
     name := sensor_name file_path;
     sampling_rate := None;
     filter_type := None;
     median_filter_window_size := None;
     process_variance_q := None;
     measurement_variance_estimate := None;
     mean_signal := None;
     mean := None |}.

(** ** Further specification-side definitions *)

(** [i] is the first index of a least element of [a]. *)
Definition first_minimum (a : list Z) (i : nat) : Prop :=
  ∃ v, a !! i = Some v ∧
       (∀ j w, a !! j = Some w → v ≤ w) ∧
       (∀ j w, (j < i)%nat → a !! j = Some w → v < w).

(** The title of a drawing request. *)
Definition call_title {F : Type} (c : view_call F) : option string :=
  match c with
  | plot_sensor_data title _ _ _ _ => Some title
  | plot_signal title _ _ => Some title
  | show => None
  end.

(** The title under which a stage is notified, if it is. *)
Definition stage_title {F : Type} (s : stage F) : option string :=
  match s with
  | Normalizer => Some "normalize"%string
  | Merger => None
  | MedianSmoother _ => Some "median filter"%string
  | BandFilterStage _ type => Some (type +:+ " filter")
  | KalmanEstimator => Some "kalman filter"%string
  end.

(** What no stage touches: the stamps, the name, the view and the
    configuration. *)
Definition fixed_part {F : Type} (self : Sensor F) :=
  (timestamp self, name self, view self, median_filter_window_size self,
   sampling_rate self, filter_type self, process_variance_q self,
   measurement_variance_estimate self).

(** What a call of [process] leaves alone, view apart. *)
Definition settings {F : Type} (self : Sensor F) :=
  (timestamp self, name self, median_filter_window_size self,
   sampling_rate self, filter_type self, process_variance_q self,
   measurement_variance_estimate self).

Definition kept {F : Type} (self self' : Sensor F) : Prop :=
  settings self' = settings self ∧ (view self = None → view self' = None).

Section Blocks.
Context {F : Type} {num : Number F} {lib : Library F}.

(** The block that the export writes for a label centred at [c]. *)
Definition label_block (self : Sensor F) (c : Z) (label : string)
    : list string :=
  ["label " +:+ label +:+ newline; "x,y,z" +:+ newline]
  ++ sample_lines (get_data_slice (x self) c default_window_size)
       (get_data_slice (y self) c default_window_size)
       (get_data_slice (z self) c default_window_size)
  ++ [newline].

(** The text after the first [j] labels. *)
Definition exported (self : Sensor F) (label_timestamps : list Z)
    (labels : list string) (j : nat) (file : list string) : Prop :=
  ∃ centers,
    Forall2 (λ t c, center_timestamp_index self t = Ok c)
      (take j label_timestamps) centers ∧
    file = concat (zip_with (label_block self) centers labels).

End Blocks.

(** ** Further concrete inputs *)

(** A recording with a view attached that has drawn nothing yet. *)
Definition viewed (n : nat) : Sensor float := set_view (Some []) (recording n).

(** * Properties *)

(** ** Sequencing and loops *)

Lemma bind_ok {S A B} (m : stateful S A) (k : A → stateful S B) s a s' :
  m s = (Ok a, s') → (m ≫= k) s = k a s'.
Proof. intros E. unfold mbind, stateful_bind. by rewrite E. Qed.

Lemma bind_ret {S A B} (a : A) (k : A → stateful S B) (s : S) :
  (mret a ≫= k) s = k a s.
Proof. done. Qed.

Lemma bind_read {S A B} (f : S → A) (k : A → stateful S B) (s : S) :
  (read f ≫= k) s = k (f s) s.
Proof. done. Qed.

Lemma bind_assoc {S A B C} (m : stateful S A) (k : A → stateful S B)
    (k' : B → stateful S C) (s : S) :
  ((m ≫= k) ≫= k') s = (m ≫= λ a, k a ≫= k') s.
Proof.
  unfold mbind, stateful_bind. by destruct (m s) as [[a|e] s'].
Qed.

Lemma bind_congruence {S A B} (m : stateful S A) (k k' : A → stateful S B)
    (s : S) :
  (∀ a s', m s = (Ok a, s') → k a s' = k' a s') →
  (m ≫= k) s = (m ≫= k') s.
Proof.
  intros H. unfold mbind, stateful_bind.
  destruct (m s) as [[a|e] s'] eqn:E; [by apply H|done].
Qed.

(** Bring both sides of an equation between runs to right-nested
    form, then step over a common first action. *)
Ltac normalise :=
  repeat first [rewrite bind_assoc | rewrite bind_ret].

Tactic Notation "same_step" "as" simple_intropattern(a) ident(s) ident(E) :=
  normalise; apply bind_congruence; intros a s E.

Lemma for_range_from_invariant {S} (Inv : nat → S → Prop) body count :
  ∀ lo s,
    Inv lo s →
    (∀ i t, (lo ≤ i < lo + count)%nat → Inv i t →
            ∃ t', body i t = (Ok (), t') ∧ Inv (Datatypes.S i) t') →
    ∃ s', for_range_from lo count body s = (Ok (), s')
          ∧ Inv (lo + count)%nat s'.
Proof.
  induction count as [|count IH]; intros lo s Hs Hbody; simpl.
  - exists s. split; [done|]. by rewrite Nat.add_0_r.
  - destruct (Hbody lo s) as (t & Et & Ht); [lia|done|].
    destruct (IH (Datatypes.S lo) t Ht) as (s' & Es' & Hs').
    { intros i u Hi Hu. apply Hbody; [lia|done]. }
    exists s'. split.
    + by rewrite (bind_ok _ _ _ _ _ Et).
    + by replace (lo + Datatypes.S count)%nat
        with (Datatypes.S lo + count)%nat by lia.
Qed.

Lemma for_range_invariant {S} (Inv : nat → S → Prop) body lo hi s :
  (lo ≤ hi)%nat →
  Inv lo s →
  (∀ i t, (lo ≤ i < hi)%nat → Inv i t →
          ∃ t', body i t = (Ok (), t') ∧ Inv (Datatypes.S i) t') →
  ∃ s', for_range lo hi body s = (Ok (), s') ∧ Inv hi s'.
Proof.
  intros Hle Hs Hbody. unfold for_range.
  destruct (for_range_from_invariant Inv body (hi - lo) lo s Hs)
    as (s' & E & H).
  - intros i t Hi. apply Hbody. lia.
  - exists s'. split; [done|]. by replace hi with (lo + (hi - lo))%nat by lia.
Qed.

Lemma for_range_from_ext {S} (body body' : nat → stateful S unit) count :
  ∀ lo s, (∀ i t, body i t = body' i t) →
    for_range_from lo count body s = for_range_from lo count body' s.
Proof.
  induction count as [|count IH]; intros lo s E; simpl; [done|].
  unfold mbind, stateful_bind. rewrite E.
  destruct (body' lo s) as [[[]|e] t]; [by apply IH|done].
Qed.

Lemma getitem_Some {A} (a : list A) i v : a !! i = Some v → getitem a i = Ok v.
Proof. intros E. unfold getitem. by rewrite E. Qed.

Lemma setitem_lt {A} (a : list A) i v :
  (i < length a)%nat → setitem a i v = Ok (<[i := v]> a).
Proof. intros H. unfold setitem. by rewrite decide_True. Qed.

(** ** The Kalman estimator *)

Section Kalman.
Context {F : Type} {num : Number F}.

Lemma length_np_zeros n : length (np_zeros (F:=F) n) = n.
Proof. apply length_replicate. Qed.

Lemma kalman_step_update (self : Sensor F) data q r i k k' :
  process_variance_q self = Some q →
  measurement_variance_estimate self = Some r →
  kalman_lengths (length data) k →
  (i < length data)%nat →
  kalman_update q r data i k = Some k' →
  kalman_step self data i k = (Ok (), k').
Proof.
  intros Hq Hr (L1 & L2 & L3 & L4 & L5) Hi U.
  unfold kalman_update in U.
  destruct (a_posteriori_estimate k !! (i - 1)%nat) as [e|] eqn:Ee; [|done].
  destruct (a_posteriori_error_estimate k !! (i - 1)%nat) as [p|] eqn:Ep;
    [|done].
  destruct (data !! i) as [d|] eqn:Ed; [|done].
  simpl in U. injection U as <-.
  unfold kalman_step, get, lift, set_a_priori_estimate,
    set_a_priori_error_estimate, set_blending_factor_gain,
    set_a_posteriori_estimate, set_a_posteriori_error_estimate,
    mbind, stateful_bind.
  rewrite Hq, Hr.
  repeat (simpl; first
    [ erewrite getitem_Some
        by first [ eassumption | apply list_lookup_insert_eq; lia ]
    | rewrite setitem_lt by lia ]).
  done.
Qed.

Lemma kalman_update_invariant q r data j k :
  (1 ≤ j < length data)%nat →
  kalman_invariant q r data j k →
  ∃ k', kalman_update q r data j k = Some k' ∧
        kalman_invariant q r data (Datatypes.S j) k'.
Proof.
  intros Hj ((L1 & L2 & L3 & L4 & L5) & H0 & H1 & Hrec).
  destruct (lookup_lt_is_Some_2 (a_posteriori_estimate k) (j - 1)) as [e Ee];
    [lia|].
  destruct (lookup_lt_is_Some_2 (a_posteriori_error_estimate k) (j - 1))
    as [p Ep]; [lia|].
  destruct (lookup_lt_is_Some_2 data j) as [d Ed]; [lia|].
  unfold kalman_update. rewrite Ee, Ep, Ed. simpl.
  eexists. split; [reflexivity|].
  split; [|split; [|split]]; simpl.
  - unfold kalman_lengths; simpl. rewrite !length_insert. done.
  - rewrite list_lookup_insert_ne by lia. done.
  - rewrite list_lookup_insert_ne by lia. done.
  - intros i Hi. destruct (decide (i = j)) as [->|Hne].
    + exists e, p, d.
      rewrite !list_lookup_insert_ne by lia.
      rewrite !list_lookup_insert_eq by lia. done.
    + destruct (Hrec i) as (e' & p' & d' & E1 & E2 & E3 & E4 & E5); [lia|].
      exists e', p', d'.
      rewrite !list_lookup_insert_ne by lia. done.
Qed.

(** With at least one sample and both variances set, the run ends
    normally on arrays that satisfy the recursion at every index. *)
Lemma kalman_run_recursion (self : Sensor F) data q r :
  data ≠ [] →
  process_variance_q self = Some q →
  measurement_variance_estimate self = Some r →
  ∃ k, kalman_run self data (kalman_zeros (length data)) = (Ok (), k) ∧
       kalman_invariant q r data (length data) k.
Proof.
  intros Hne Hq Hr.
  assert (0 < length data)%nat as Hlen by (destruct data; [done|simpl; lia]).
  unfold kalman_run.
  set (k0 := {| a_posteriori_estimate :=
                  <[0%nat := of_Z 0]> (np_zeros (length data));
                a_posteriori_error_estimate :=
                  <[0%nat := of_Z 1]> (np_zeros (length data));
                a_priori_estimate := np_zeros (length data);
                a_priori_error_estimate := np_zeros (length data);
                blending_factor_gain := np_zeros (length data) |}).
  assert (kalman_invariant q r data 1 k0) as Hk0.
  { split; [|split; [|split]]; simpl.
    - unfold kalman_lengths; simpl.
      rewrite !length_insert, !length_np_zeros. done.
    - apply list_lookup_insert_eq. by rewrite length_np_zeros.
    - apply list_lookup_insert_eq. by rewrite length_np_zeros.
    - intros i Hi. lia. }
  destruct (for_range_invariant (kalman_invariant q r data)
              (kalman_step self data) 1 (length data) k0) as (k & Ek & Hk);
    [lia|done| |].
  - intros i t Hi Ht.
    destruct (kalman_update_invariant q r data i t Hi Ht) as (t' & U & Ht').
    exists t'. split; [|done].
    apply (kalman_step_update self data q r); [done|done|apply Ht|lia|done].
  - exists k. split; [|done].
    rewrite <- Ek.
    unfold mbind, stateful_bind, set_a_posteriori_estimate,
      set_a_posteriori_error_estimate, kalman_zeros.
    repeat (simpl; rewrite setitem_lt
              by (unfold np_zeros; rewrite length_replicate; lia)).
    done.
Qed.

Lemma get_kalman_filter_estimate_returns (self : Sensor F) data q r :
  data ≠ [] →
  process_variance_q self = Some q →
  measurement_variance_estimate self = Some r →
  ∃ estimate, get_kalman_filter_estimate self data = Ok estimate.
Proof.
  intros Hne Hq Hr.
  destruct (kalman_run_recursion self data q r Hne Hq Hr) as (k & Ek & _).
  exists (a_posteriori_estimate k).
  unfold get_kalman_filter_estimate. by rewrite Ek.
Qed.

Lemma kalman_states_cons (q r : F) (state : F * F) (d : F) (data : list F) :
  kalman_states q r state (d :: data)
  = kalman_next q r state d
    :: kalman_states q r (kalman_next q r state d) data.
Proof. reflexivity. Qed.

Lemma length_kalman_states (q r : F) (data : list F) : ∀ state,
  length (kalman_states q r state data) = length data.
Proof.
  induction data as [|d data IH]; intros state; simpl; [done|]. by rewrite IH.
Qed.

Lemma length_recursion_states (q r : F) (data : list F) :
  length (recursion_states q r data) = length data.
Proof. destruct data; simpl; [done|]. by rewrite length_kalman_states. Qed.

Lemma length_recursion_estimate (q r : F) (data : list F) :
  length (recursion_estimate q r data) = length data.
Proof.
  unfold recursion_estimate. by rewrite length_fmap, length_recursion_states.
Qed.

(** Each state of the recursion comes from the one before it. *)
Lemma kalman_states_next (q r : F) (data : list F) : ∀ state j d state_j,
  data !! j = Some d →
  (state :: kalman_states q r state data) !! j = Some state_j →
  (state :: kalman_states q r state data) !! Datatypes.S j
  = Some (kalman_next q r state_j d).
Proof.
  induction data as [|d0 data IH]; intros state j d state_j Hd Hs; [done|].
  destruct j as [|j].
  - simpl in Hd, Hs. by simplify_eq.
  - simpl in Hd. change ((kalman_states q r state (d0 :: data)) !! j
                          = Some state_j) in Hs.
    simpl in Hs. apply (IH _ j d state_j Hd Hs).
Qed.

Lemma recursion_states_next (q r : F) (data : list F) i d state :
  (1 ≤ i)%nat →
  data !! i = Some d →
  recursion_states q r data !! (i - 1)%nat = Some state →
  recursion_states q r data !! i = Some (kalman_next q r state d).
Proof.
  intros Hi Hd Hs. destruct data as [|d0 data]; [done|].
  destruct i as [|i]; [lia|]. simpl in Hd.
  replace (Datatypes.S i - 1)%nat with i in Hs by lia.
  apply (kalman_states_next q r data _ i d state Hd Hs).
Qed.

(** Arrays that start at 0 and 1 and satisfy the recursion at every
    index hold the states of the recursion. *)
Lemma kalman_invariant_states (q r : F) (data : list F) k i :
  kalman_invariant q r data (length data) k →
  (i < length data)%nat →
  ∃ e p, recursion_states q r data !! i = Some (e, p) ∧
         a_posteriori_estimate k !! i = Some e ∧
         a_posteriori_error_estimate k !! i = Some p.
Proof.
  intros (Hl & H0 & H1 & Hrec). induction i as [|i IH]; intros Hi.
  - exists (of_Z 0), (of_Z 1). destruct data; [simpl in Hi; lia|]. done.
  - destruct IH as (e & p & Hs & He & Hp); [lia|].
    destruct (Hrec (Datatypes.S i)) as (e' & p' & d & E1 & E2 & E3 & E4 & E5);
      [lia|].
    replace (Datatypes.S i - 1)%nat with i in E1, E2 by lia.
    simplify_eq.
    eexists _, _. split; [|split; [exact E4|exact E5]].
    apply (recursion_states_next q r data (Datatypes.S i) d (e, p));
      [lia|done|].
    by replace (Datatypes.S i - 1)%nat with i by lia.
Qed.

Lemma kalman_invariant_closed (q r : F) (data : list F) k :
  kalman_invariant q r data (length data) k →
  a_posteriori_estimate k = recursion_estimate q r data ∧
  a_posteriori_error_estimate k = recursion_error q r data.
Proof.
  intros Hk. pose proof Hk as ((L1 & L2 & _) & _).
  split; apply list_eq; intros i;
    unfold recursion_estimate, recursion_error; rewrite list_lookup_fmap;
    (destruct (decide (i < length data)%nat) as [Hi|Hi];
     [ destruct (kalman_invariant_states q r data k i Hk Hi)
         as (e & p & Es & Ee & Ep); rewrite Es, ?Ee, ?Ep; done
     | rewrite !lookup_ge_None_2
         by (rewrite ?length_recursion_states; lia); done ]).
Qed.

(** With at least one sample and both variances set, the estimator
    returns the estimates of the recursion, and its error array holds
    the errors of the recursion. *)
Lemma get_kalman_filter_estimate_closed (self : Sensor F) data q r :
  data ≠ [] →
  process_variance_q self = Some q →
  measurement_variance_estimate self = Some r →
  get_kalman_filter_estimate self data = Ok (recursion_estimate q r data) ∧
  ∃ k, kalman_run self data (kalman_zeros (length data)) = (Ok (), k) ∧
       a_posteriori_error_estimate k = recursion_error q r data.
Proof.
  intros Hne Hq Hr.
  destruct (kalman_run_recursion self data q r Hne Hq Hr) as (k & Ek & Hk).
  unfold get_kalman_filter_estimate. rewrite Ek.
  destruct (kalman_invariant_closed q r data k Hk) as [-> Ee]. eauto.
Qed.

(** The estimator reads the sensor for its two variances only. *)
Lemma kalman_step_parameters (self other : Sensor F) data i k :
  process_variance_q other = process_variance_q self →
  measurement_variance_estimate other = measurement_variance_estimate self →
  kalman_step other data i k = kalman_step self data i k.
Proof. intros Hq Hr. unfold kalman_step. by rewrite Hq, Hr. Qed.

Lemma get_kalman_filter_estimate_parameters (self other : Sensor F) data :
  process_variance_q other = process_variance_q self →
  measurement_variance_estimate other = measurement_variance_estimate self →
  get_kalman_filter_estimate other data = get_kalman_filter_estimate self data.
Proof.
  intros Hq Hr. unfold get_kalman_filter_estimate, kalman_run.
  unfold mbind, stateful_bind.
  destruct (set_a_posteriori_estimate _ _ _) as [[[]|e] k]; [|done].
  destruct (set_a_posteriori_error_estimate _ _ _) as [[[]|e] k']; [|done].
  unfold for_range.
  rewrite (for_range_from_ext (kalman_step other data) (kalman_step self data));
    [done|].
  intros i t. by apply kalman_step_parameters.
Qed.

Lemma apply_kalman_filter_per_axis (self : Sensor F) q r :
  mean_signal self = None →
  x self ≠ [] → y self ≠ [] → z self ≠ [] →
  process_variance_q self = Some q →
  measurement_variance_estimate self = Some r →
  ∃ self', apply_kalman_filter self = (Ok (), self').
Proof.
  intros Hm Hx Hy Hz Hq Hr.
  unfold apply_kalman_filter, mbind, stateful_bind, read, lift, assign.
  rewrite Hm. simpl.
  destruct (get_kalman_filter_estimate_returns self (x self) q r)
    as [ex ->]; [done..|]. simpl.
  destruct (get_kalman_filter_estimate_returns (set_x ex self) (y self) q r)
    as [ey ->]; [done..|]. simpl.
  destruct (get_kalman_filter_estimate_returns
              (set_y ey (set_x ex self)) (z self) q r)
    as [ez ->]; [done..|]. simpl.
  eauto.
Qed.

End Kalman.

(** On binary64 a NaN operand gives NaN. *)
Lemma mul_nan_l (v : float) : (nan * v)%float = nan.
Proof.
  apply Prim2SF_inj. rewrite FloatAxioms.mul_spec. by destruct (Prim2SF v).
Qed.

Lemma add_nan_r (v : float) : (v + nan)%float = nan.
Proof.
  apply Prim2SF_inj. rewrite FloatAxioms.add_spec.
  destruct (Prim2SF v) as [| | |[] ? ?]; done.
Qed.

(** With both variances 0 the first step takes the error to 0, the
    second divides 0 by 0, and NaN stays from there on. *)
Lemma kalman_next_from_rest (d : float) :
  ∃ e, kalman_next 0%float 0%float (0%float, 1%float) d = (e, 0%float).
Proof. eexists. unfold kalman_next. simpl. f_equal. Qed.

Lemma kalman_next_zero_error (e d : float) :
  kalman_next 0%float 0%float (e, 0%float) d = (nan, nan).
Proof.
  unfold kalman_next. simpl.
  change (0 + 0)%float with 0%float. change (0 / 0)%float with nan.
  change ((1 - nan) * 0)%float with nan.
  by rewrite mul_nan_l, add_nan_r.
Qed.

Lemma kalman_next_nan (d : float) :
  kalman_next 0%float 0%float (nan, nan) d = (nan, nan).
Proof.
  unfold kalman_next. simpl.
  change (nan + 0)%float with nan. change (nan / nan)%float with nan.
  change ((1 - nan) * nan)%float with nan.
  by rewrite mul_nan_l, add_nan_r.
Qed.

Lemma kalman_states_nan (data : list float) :
  kalman_states 0%float 0%float (nan, nan) data
  = replicate (length data) (nan, nan).
Proof.
  induction data as [|d data IH]; [done|].
  rewrite kalman_states_cons, kalman_next_nan, IH. done.
Qed.

Lemma recursion_estimate_nan (data : list float) (i : nat) :
  (2 ≤ i < length data)%nat →
  recursion_estimate 0%float 0%float data !! i = Some nan.
Proof.
  intros Hi. destruct data as [|d0 [|d1 [|d2 data]]]; [simpl in Hi; lia..|].
  unfold recursion_estimate, recursion_states.
  change (of_Z 0) with 0%float. change (of_Z 1) with 1%float.
  rewrite !kalman_states_cons.
  destruct (kalman_next_from_rest d1) as [e ->].
  rewrite kalman_next_zero_error, kalman_states_nan.
  destruct i as [|[|i]]; [lia..|]. simpl in Hi.
  rewrite list_lookup_fmap.
  change (fst <$> replicate (Datatypes.S (length data)) (nan, nan) !! i
          = Some nan).
  rewrite lookup_replicate_2 by lia. done.
Qed.

(** C1. For every input sequence of length n >= 1 and variances Q
    and R, [get_kalman_filter_estimate] returns an estimate of length n
    with [estimate[0] = 0] and [error[0] = 1], and at every index i in
    1..n-1, with [a_priori_error = error[i-1] + Q] and
    [gain = a_priori_error / (a_priori_error + R)], it has
    [estimate[i] = estimate[i-1] + gain * (data[i] - estimate[i-1])] and
    [error[i] = (1 - gain) * a_priori_error].  The error sequence is the
    work array [a_posteriori_error_estimate] the run ends on. *)
Theorem kalman_estimate_follows_recursion {F : Type} {num : Number F}
    (self : Sensor F) (data : list F) (q r : F) :
  (1 ≤ length data)%nat →
  process_variance_q self = Some q →
  measurement_variance_estimate self = Some r →
  ∃ k,
    kalman_run self data (kalman_zeros (length data)) = (Ok (), k) ∧
    get_kalman_filter_estimate self data = Ok (a_posteriori_estimate k) ∧
    length (a_posteriori_estimate k) = length data ∧
    a_posteriori_estimate k !! 0%nat = Some (of_Z 0) ∧
    a_posteriori_error_estimate k !! 0%nat = Some (of_Z 1) ∧
    ∀ i, (1 ≤ i < length data)%nat →
      kalman_recursion q r data (a_posteriori_estimate k)
        (a_posteriori_error_estimate k) i.
Proof.
  intros Hn Hq Hr.
  destruct (kalman_run_recursion self data q r)
    as (k & Ek & Hl & H0 & H1 & Hrec);
    [by destruct data; [simpl in Hn; lia|]|done|done|].
  exists k. unfold get_kalman_filter_estimate. rewrite Ek.
  repeat split; [apply Hl|done..].
Qed.

Lemma kalman_estimate_follows_recursion_witness :
  ∃ k,
    kalman_run (at_rest [] [] [] (Some 0.5%float) (Some 1%float))
      [5; 5; 5]%float (kalman_zeros 3) = (Ok (), k) ∧
    get_kalman_filter_estimate
      (at_rest [] [] [] (Some 0.5%float) (Some 1%float)) [5; 5; 5]%float
    = Ok (a_posteriori_estimate k) ∧
    length (a_posteriori_estimate k) = 3%nat ∧
    a_posteriori_estimate k !! 0%nat = Some 0%float ∧
    a_posteriori_error_estimate k !! 0%nat = Some 1%float ∧
    ∀ i, (1 ≤ i < 3)%nat →
      kalman_recursion 0.5%float 1%float [5; 5; 5]%float
        (a_posteriori_estimate k) (a_posteriori_error_estimate k) i.
Proof.
  exact (kalman_estimate_follows_recursion
           (at_rest [] [] [] (Some 0.5%float) (Some 1%float))
           [5; 5; 5]%float 0.5%float 1%float
           ltac:(simpl; lia) eq_refl eq_refl).
Defined.

(** C3, at a concrete input: with measurement variance 0 (and process
    variance 0) the estimator raises nothing; it runs the recursion on
    three samples and returns an estimate whose last value is NaN. *)
Lemma kalman_zero_variance_runs :
  PrimFloat.leb 0 0 = true ∧
  get_kalman_filter_estimate (at_rest [] [] [] (Some 0%float) (Some 0%float))
    [1; 1; 1]%float = Ok [0%float; 1%float; nan].
Proof. split; vm_compute; reflexivity. Qed.

(** C3, as the code has it: the estimator validates nothing.  For
    every measurement variance R, positive or not, a run on n >= 1
    samples ends normally and returns the n estimates of the recursion
    started at estimate 0 and error 1; with both variances 0, every
    estimate from index 2 on is NaN. *)
Theorem kalman_nonpositive_variance_unchecked (self : Sensor float)
    (data : list float) (q r : float) :
  (1 ≤ length data)%nat →
  process_variance_q self = Some q →
  measurement_variance_estimate self = Some r →
  get_kalman_filter_estimate self data = Ok (recursion_estimate q r data) ∧
  length (recursion_estimate q r data) = length data ∧
  recursion_estimate q r data !! 0%nat = Some 0%float ∧
  (∃ k, kalman_run self data (kalman_zeros (length data)) = (Ok (), k) ∧
        a_posteriori_error_estimate k = recursion_error q r data ∧
        recursion_error q r data !! 0%nat = Some 1%float) ∧
  (q = 0%float → r = 0%float →
   ∀ i, (2 ≤ i < length data)%nat →
     recursion_estimate q r data !! i = Some nan).
Proof.
  intros Hn Hq Hr.
  assert (data ≠ []) as Hne by (by destruct data; [simpl in Hn; lia|]).
  destruct (get_kalman_filter_estimate_closed self data q r Hne Hq Hr)
    as (E & k & Ek & Ee).
  split; [done|]. split; [apply length_recursion_estimate|].
  split; [by destruct data|].
  split; [exists k; by destruct data|].
  intros -> -> i Hi. by apply recursion_estimate_nan.
Qed.

Lemma kalman_nonpositive_variance_unchecked_witness :
  (get_kalman_filter_estimate
     (at_rest [] [] [] (Some 0.5%float) (Some (-1)%float)) [5; 5; 5]%float
   = Ok (recursion_estimate 0.5%float (-1)%float [5; 5; 5]%float) ∧
   length (recursion_estimate 0.5%float (-1)%float [5; 5; 5]%float) = 3%nat) ∧
  (get_kalman_filter_estimate
     (at_rest [] [] [] (Some 0%float) (Some 0%float)) [5; 5; 5]%float
   = Ok (recursion_estimate 0%float 0%float [5; 5; 5]%float) ∧
   recursion_estimate 0%float 0%float [5; 5; 5]%float !! 2%nat = Some nan).
Proof.
  split.
  - destruct (kalman_nonpositive_variance_unchecked
                (at_rest [] [] [] (Some 0.5%float) (Some (-1)%float))
                [5; 5; 5]%float 0.5%float (-1)%float
                ltac:(simpl; lia) eq_refl eq_refl) as (E & L & _).
    exact (conj E L).
  - destruct (kalman_nonpositive_variance_unchecked
                (at_rest [] [] [] (Some 0%float) (Some 0%float))
                [5; 5; 5]%float 0%float 0%float
                ltac:(simpl; lia) eq_refl eq_refl) as (E & _ & _ & _ & N).
    exact (conj E (N eq_refl eq_refl 2%nat ltac:(simpl; lia))).
Defined.

(** ** The merge of the three axes *)

Section Mean.
Context {F : Type} {num : Number F}.

Lemma mean_step_invariant (self : Sensor F) j mean :
  length (y self) = length (x self) →
  length (z self) = length (x self) →
  (j < length (x self))%nat →
  mean_invariant self j mean →
  ∃ mean', mean_step self j mean = (Ok (), mean') ∧
           mean_invariant self (Datatypes.S j) mean'.
Proof.
  intros Hy Hz Hj [Hlen Hmean].
  destruct (lookup_lt_is_Some_2 (x self) j) as [xj Ex]; [lia|].
  destruct (lookup_lt_is_Some_2 (y self) j) as [yj Ey]; [lia|].
  destruct (lookup_lt_is_Some_2 (z self) j) as [zj Ez]; [lia|].
  exists (<[j := ((xj + yj + zj) / of_Z 3)%num]> mean). split.
  - unfold mean_step, lift, read, assign, mbind, stateful_bind.
    rewrite (getitem_Some _ _ _ Ex), (getitem_Some _ _ _ Ey),
      (getitem_Some _ _ _ Ez). simpl.
    rewrite setitem_lt by lia. done.
  - split; [by rewrite length_insert|].
    intros i xi yi zi Hi Exi Eyi Ezi.
    destruct (decide (i = j)) as [->|Hne].
    + rewrite list_lookup_insert_eq by lia. congruence.
    + rewrite list_lookup_insert_ne by lia. apply Hmean; [lia|done..].
Qed.

Lemma get_mean_signal_invariant (self : Sensor F) :
  length (y self) = length (x self) →
  length (z self) = length (x self) →
  ∃ mean, get_mean_signal self = Ok mean ∧
          mean_invariant self (length (x self)) mean.
Proof.
  intros Hy Hz. unfold get_mean_signal.
  destruct (for_range_invariant (mean_invariant self) (mean_step self) 0
              (length (x self)) (np_zeros (length (x self))))
    as (mean & E & H); [lia| | |].
  - split; [apply length_np_zeros|]. intros; lia.
  - intros i t Hi Ht. apply mean_step_invariant; [done|done|lia|done].
  - exists mean. by rewrite E.
Qed.

End Mean.

(** C7. For axes x, y, z of equal length, [get_mean_signal] returns a
    sequence of that length whose value at every index i is
    [(x[i] + y[i] + z[i]) / 3]; on binary64, x = [3], y = [0], z = [0]
    gives [1.0]. *)
Theorem mean_signal_is_axis_average :
  (∀ (F : Type) (num : Number F) (self : Sensor F),
     length (y self) = length (x self) →
     length (z self) = length (x self) →
     ∃ mean_signal,
       get_mean_signal self = Ok mean_signal ∧
       length mean_signal = length (x self) ∧
       ∀ i xi yi zi,
         x self !! i = Some xi → y self !! i = Some yi →
         z self !! i = Some zi →
         mean_signal !! i = Some ((xi + yi + zi) / of_Z 3)%num) ∧
  (∀ self : Sensor float,
     x self = [3%float] → y self = [0%float] → z self = [0%float] →
     get_mean_signal self = Ok [1%float]).
Proof.
  split.
  - intros F num self Hy Hz.
    destruct (get_mean_signal_invariant self Hy Hz) as (m & E & Hl & Hm).
    exists m. split; [done|]. split; [done|].
    intros i xi yi zi Ex. apply Hm; [|done]. by eapply lookup_lt_Some.
  - intros self Ex Ey Ez. unfold get_mean_signal, for_range. rewrite Ex. simpl.
    unfold mean_step, mbind, stateful_bind, lift. rewrite Ex, Ey, Ez.
    vm_compute. reflexivity.
Qed.

Lemma mean_signal_is_axis_average_witness :
  (∃ mean_signal,
     get_mean_signal (at_rest [3; 1]%float [0; 2]%float [0; 3]%float None None)
     = Ok mean_signal ∧
     length mean_signal = 2%nat ∧
     ∀ i xi yi zi,
       [3; 1]%float !! i = Some xi → [0; 2]%float !! i = Some yi →
       [0; 3]%float !! i = Some zi →
       mean_signal !! i = Some ((xi + yi + zi) / 3)%float) ∧
  get_mean_signal (at_rest [3]%float [0]%float [0]%float None None)
  = Ok [1%float].
Proof.
  split.
  - exact (proj1 mean_signal_is_axis_average float float64
             (at_rest [3; 1]%float [0; 2]%float [0; 3]%float None None)
             eq_refl eq_refl).
  - exact (proj2 mean_signal_is_axis_average
             (at_rest [3]%float [0]%float [0]%float None None)
             eq_refl eq_refl eq_refl).
Defined.

(** ** Normalisation *)

Section Normalize.
Context {F : Type} {num : Number F}.

Lemma mapM_normalize_axis (self : Sensor F) (m : F) (a : list F) :
  mean self = Some m →
  mapM normalize_axis a self = (Ok ((λ value, value - m)%num <$> a), self).
Proof.
  intros Hm. induction a as [|v a IH]; [done|].
  simpl. unfold mbind at 1. unfold stateful_bind at 1.
  unfold normalize_axis at 1. unfold mbind at 1, stateful_bind at 1, read at 1.
  rewrite Hm. unfold mret at 1, stateful_ret at 1.
  unfold mbind at 1. unfold stateful_bind at 1. rewrite IH. done.
Qed.

(** [normalize] never raises, and leaves each axis centred on its own
    mean. *)
Lemma normalize_normalized (self : Sensor F) :
  normalize self = (Ok (), normalized self).
Proof.
  unfold normalize, normalized, centered.
  unfold mbind, stateful_bind, read, assign; simpl.
  rewrite (mapM_normalize_axis _ (np_mean (x self))) by done. simpl.
  rewrite (mapM_normalize_axis _ (np_mean (y self))) by done. simpl.
  rewrite (mapM_normalize_axis _ (np_mean (z self))) by done. simpl.
  done.
Qed.

Lemma centered_nonempty (a : list F) : a ≠ [] → centered a ≠ [].
Proof. by destruct a. Qed.

End Normalize.

(** The pairwise sum of [np.mean]. *)
Section Pairwise.
Context {F : Type} {num : Number F}.

Lemma pairwise_sum_within_short depth (a : list F) :
  (length a < 8)%nat → pairwise_sum_within depth a = foldl add (of_Z 0) a.
Proof.
  intros Hn.
  do 8 (destruct a as [|? a]; [by destruct depth|]).
  simpl in Hn. lia.
Qed.

Lemma pairwise_sum_within_cut depth (a : list F) :
  (PW_BLOCKSIZE < length a)%nat →
  pairwise_sum_within (Datatypes.S depth) a
  = (pairwise_sum_within depth
       (take (length a / 2 - (length a / 2) `mod` 8)%nat a)
     + pairwise_sum_within depth
         (drop (length a / 2 - (length a / 2) `mod` 8)%nat a))%num.
Proof.
  intros Hn.
  do 8 (destruct a as [|? a]; [unfold PW_BLOCKSIZE in Hn; simpl in Hn; lia|]).
  cbn [pairwise_sum_within].
  destruct (decide _) as [Hle|_]; [lia|]. done.
Qed.

Lemma cut_lengths (n : nat) :
  (PW_BLOCKSIZE < n)%nat →
  (0 < n / 2 - (n / 2) `mod` 8 < n)%nat.
Proof.
  unfold PW_BLOCKSIZE. intros Hn.
  assert (n / 2 ≤ n)%nat by (apply Nat.Div0.div_le_upper_bound; lia).
  assert (64 ≤ n / 2)%nat by (apply Nat.div_le_lower_bound; lia).
  assert (n / 2 < n)%nat by (apply Nat.div_lt; lia).
  assert ((n / 2) `mod` 8 < 8)%nat by (apply Nat.mod_upper_bound; lia).
  lia.
Qed.

(** More depth than the length never changes the sum. *)
Lemma pairwise_sum_within_enough depth : ∀ (a : list F) depth',
  (length a ≤ depth)%nat → (length a ≤ depth')%nat →
  pairwise_sum_within depth a = pairwise_sum_within depth' a.
Proof.
  induction depth as [|depth IH]; intros a depth' Hd Hd'.
  - destruct a; [|simpl in Hd; lia]. by destruct depth'.
  - destruct (decide (length a < 8)%nat) as [Hs|Hs].
    { by rewrite !pairwise_sum_within_short. }
    destruct (decide (length a ≤ PW_BLOCKSIZE)%nat) as [Hb|Hb].
    { do 8 (destruct a as [|? a]; [simpl in Hs; lia|]).
      destruct depth'; cbn [pairwise_sum_within];
        destruct (decide _); done || lia. }
    destruct depth' as [|depth']; [unfold PW_BLOCKSIZE in Hb; lia|].
    rewrite !pairwise_sum_within_cut by lia.
    pose proof (cut_lengths (length a) ltac:(lia)) as Hc.
    f_equal; apply IH; rewrite ?length_take, ?length_drop; lia.
Qed.

(** The sum as numpy's routine cuts it. *)
Lemma pairwise_sum_cut (a : list F) :
  (PW_BLOCKSIZE < length a)%nat →
  pairwise_sum a
  = (pairwise_sum (take (length a / 2 - (length a / 2) `mod` 8)%nat a)
     + pairwise_sum (drop (length a / 2 - (length a / 2) `mod` 8)%nat a))%num.
Proof.
  intros Hn. unfold pairwise_sum.
  pose proof (cut_lengths (length a) Hn) as Hc.
  destruct (length a) as [|n] eqn:E; [lia|].
  rewrite pairwise_sum_within_cut by lia. rewrite E.
  f_equal; apply pairwise_sum_within_enough;
    rewrite ?length_take, ?length_drop; lia.
Qed.

End Pairwise.

(** Sums of rationals. *)
Section ExactSums.
Local Open Scope Q_scope.

Lemma foldl_Qplus_total (a : list Q) : ∀ acc : Q,
  foldl Qplus acc a == acc + total a.
Proof.
  induction a as [|v a IH]; intros acc; simpl.
  - ring.
  - rewrite IH. ring.
Qed.

Lemma total_app (a b : list Q) : total (a ++ b) == total a + total b.
Proof.
  induction a as [|v a IH]; simpl; [ring|]. rewrite IH. ring.
Qed.

Lemma unrolled_sum_total (n : nat) : ∀ (a : list Q) r0 r1 r2 r3 r4 r5 r6 r7,
  (length a ≤ n)%nat →
  unrolled_sum (r0, r1, r2, r3, r4, r5, r6, r7) a
  == r0 + r1 + r2 + r3 + r4 + r5 + r6 + r7 + total a.
Proof.
  induction n as [|n IH]; intros a r0 r1 r2 r3 r4 r5 r6 r7 Hn.
  - destruct a; [|simpl in Hn; lia]. simpl. ring.
  - do 8 (destruct a as [|? a];
          [cbn [unrolled_sum]; rewrite foldl_Qplus_total; simpl; ring|]).
    cbn [unrolled_sum]. change add with Qplus.
    rewrite IH by (simpl in Hn; lia). simpl. ring.
Qed.

Lemma pairwise_sum_within_total depth : ∀ a : list Q,
  (length a ≤ depth)%nat → pairwise_sum_within depth a == total a.
Proof.
  induction depth as [|depth IH]; intros a Hd.
  - destruct a; [|simpl in Hd; lia]. simpl. reflexivity.
  - destruct (decide (length a < 8)%nat) as [Hs|Hs].
    { rewrite pairwise_sum_within_short by done.
      change add with Qplus. rewrite foldl_Qplus_total.
      change (of_Z 0) with 0. ring. }
    destruct (decide (length a ≤ PW_BLOCKSIZE)%nat) as [Hb|Hb].
    { do 8 (destruct a as [|? a]; [simpl in Hs; lia|]).
      cbn [pairwise_sum_within]. destruct (decide _); [|lia].
      rewrite (unrolled_sum_total (length a)) by lia. simpl. ring. }
    rewrite pairwise_sum_within_cut by lia.
    pose proof (cut_lengths (length a) ltac:(lia)) as Hc.
    change add with Qplus.
    rewrite !IH by (rewrite ?length_take, ?length_drop; lia).
    rewrite <- total_app, take_drop. reflexivity.
Qed.

Lemma np_sum_total (a : list Q) : np_sum a == total a.
Proof.
  unfold np_sum, pairwise_sum. change add with Qplus.
  rewrite pairwise_sum_within_total by done.
  change (of_Z 0) with 0. ring.
Qed.

(** In exact arithmetic [np.mean] is the arithmetic mean. *)
Lemma np_mean_arithmetic_mean (a : list Q) : np_mean a == arithmetic_mean a.
Proof.
  unfold np_mean, arithmetic_mean. change div with Qdiv.
  rewrite np_sum_total. reflexivity.
Qed.

Lemma total_shifted (m : Q) (a : list Q) :
  total ((λ value, value - m) <$> a)
  == total a - inject_Z (Z.of_nat (length a)) * m.
Proof.
  induction a as [|v a IH].
  - simpl. ring.
  - change (v - m + total ((λ value, value - m) <$> a)
            == v + total a - inject_Z (Z.of_nat (Datatypes.S (length a))) * m).
    rewrite IH, Nat2Z.inj_succ. unfold Z.succ. rewrite inject_Z_plus. ring.
Qed.

Lemma arithmetic_mean_shifted (m : Q) (a : list Q) :
  a ≠ [] → m == arithmetic_mean a →
  arithmetic_mean ((λ value, value - m) <$> a) == 0.
Proof.
  intros Hne Hm. unfold arithmetic_mean in *.
  rewrite length_fmap, total_shifted, Hm.
  assert (~ inject_Z (Z.of_nat (length a)) == 0) as Hn.
  { destruct a as [|v a]; [done|]. simpl length.
    intros E. unfold Qeq in E. simpl in E. lia. }
  revert Hn. generalize (total a) (inject_Z (Z.of_nat (length a))).
  intros s n Hn. field. exact Hn.
Qed.

(** In exact arithmetic a centred, non-empty axis has mean 0. *)
Lemma arithmetic_mean_centered (a : list Q) :
  a ≠ [] → arithmetic_mean (centered a) == 0.
Proof.
  intros Hne. apply arithmetic_mean_shifted; [done|].
  apply np_mean_arithmetic_mean.
Qed.

Lemma centered_arithmetic_mean (a : list Q) :
  Forall2 Qeq (centered a) ((λ value, value - arithmetic_mean a) <$> a).
Proof.
  unfold centered. apply Forall2_fmap, Forall_Forall2_diag, Forall_forall.
  intros v _. change sub with Qminus.
  rewrite np_mean_arithmetic_mean. reflexivity.
Qed.

End ExactSums.

(** C8. [normalize] replaces every sample of an axis by the sample
    minus the mean that [np.mean] returns for that axis, each of x, y, z
    with its own mean.  In exact arithmetic that mean is the arithmetic
    mean, the total of the samples over their number: every sample has
    the arithmetic mean of its axis taken off, and the arithmetic mean
    of every non-empty axis is 0 afterwards, whatever the two other
    axes hold. *)
Theorem normalize_centres_each_axis :
  (∀ (F : Type) (num : Number F) (self : Sensor F),
     ∃ self',
       normalize self = (Ok (), self') ∧
       x self' = (λ value, value - np_mean (x self))%num <$> x self ∧
       y self' = (λ value, value - np_mean (y self))%num <$> y self ∧
       z self' = (λ value, value - np_mean (z self))%num <$> z self) ∧
  (∀ a : list Q, (np_mean a == arithmetic_mean a)%Q) ∧
  (∀ self : Sensor Q,
     ∃ self',
       normalize self = (Ok (), self') ∧
       Forall2 Qeq (x self')
         ((λ value, value - arithmetic_mean (x self))%Q <$> x self) ∧
       Forall2 Qeq (y self')
         ((λ value, value - arithmetic_mean (y self))%Q <$> y self) ∧
       Forall2 Qeq (z self')
         ((λ value, value - arithmetic_mean (z self))%Q <$> z self) ∧
       (x self ≠ [] → (arithmetic_mean (x self') == 0)%Q) ∧
       (y self ≠ [] → (arithmetic_mean (y self') == 0)%Q) ∧
       (z self ≠ [] → (arithmetic_mean (z self') == 0)%Q)).
Proof.
  split; [|split].
  - intros F num self. exists (normalized self).
    split; [apply normalize_normalized|done].
  - apply np_mean_arithmetic_mean.
  - intros self. exists (normalized self).
    split; [apply normalize_normalized|].
    simpl. repeat split;
      first [apply centered_arithmetic_mean
            |apply arithmetic_mean_centered].
Qed.

Lemma normalize_centres_each_axis_witness :
  ∃ self',
    normalize
      (exact_sensor [3; 1; 4; 1; 5; 9; 2; 6; 5; 3]%Q [1 # 2; 5]%Q [-7]%Q)
    = (Ok (), self') ∧
    Forall2 Qeq (x self')
      ((λ value, value - arithmetic_mean [3; 1; 4; 1; 5; 9; 2; 6; 5; 3])%Q
         <$> [3; 1; 4; 1; 5; 9; 2; 6; 5; 3]%Q) ∧
    (arithmetic_mean [3; 1; 4; 1; 5; 9; 2; 6; 5; 3] == 39 # 10)%Q ∧
    (arithmetic_mean (x self') == 0)%Q ∧
    (arithmetic_mean (y self') == 0)%Q ∧
    (arithmetic_mean (z self') == 0)%Q.
Proof.
  destruct (proj2 (proj2 normalize_centres_each_axis)
              (exact_sensor [3; 1; 4; 1; 5; 9; 2; 6; 5; 3]%Q
                 [1 # 2; 5]%Q [-7]%Q))
    as (self' & E & Hx & _ & _ & Mx & My & Mz).
  exists self'.
  exact (conj E (conj Hx (conj eq_refl
           (conj (Mx ltac:(discriminate))
              (conj (My ltac:(discriminate)) (Mz ltac:(discriminate))))))).
Defined.

(** C9, at a concrete input: with an empty x axis the mean of that
    axis is NaN, and [normalize] still returns normally, leaving the
    axis empty. *)
Lemma normalize_empty_axis_returns :
  np_mean ([] : list float) = nan ∧
  normalize (at_rest [] [1%float] [2%float] None None)
  = (Ok (),
     set_mean (Some 2%float) (at_rest [] [0%float] [0%float] None None)).
Proof. split; vm_compute; reflexivity. Qed.

(** C9, as the code has it: [normalize] checks nothing.  When an axis
    is empty it returns normally, and every empty axis is still empty
    afterwards. *)
Theorem normalize_empty_axis_unchecked {F : Type} {num : Number F}
    (self : Sensor F) :
  x self = [] ∨ y self = [] ∨ z self = [] →
  ∃ self',
    normalize self = (Ok (), self') ∧
    (x self = [] → x self' = []) ∧
    (y self = [] → y self' = []) ∧
    (z self = [] → z self' = []).
Proof.
  intros _. exists (normalized self).
  split; [apply normalize_normalized|].
  unfold normalized, centered; simpl.
  repeat split; intros ->; done.
Qed.

Lemma normalize_empty_axis_unchecked_witness :
  ∃ self',
    normalize (at_rest [] [1%float] [2%float] None None) = (Ok (), self') ∧
    (([] : list float) = [] → x self' = []) ∧
    ([1%float] = [] → y self' = []) ∧
    ([2%float] = [] → z self' = []).
Proof.
  exact (normalize_empty_axis_unchecked
           (at_rest [] [1%float] [2%float] None None) (or_introl eq_refl)).
Defined.

(** ** Windows around a centre index *)

Section Slices.
Context {A : Type}.

(** A slice whose resolved start is not before its resolved stop is
    empty. *)
Lemma py_slice_empty (data : list A) (start stop : Z) :
  slice_bound (Z.of_nat (length data)) stop
    ≤ slice_bound (Z.of_nat (length data)) start →
  py_slice data start stop = [].
Proof.
  intros H. unfold py_slice.
  replace (Z.to_nat _) with 0%nat by lia. done.
Qed.

Lemma py_slice_forward (data : list A) (start stop : Z) :
  0 ≤ start ≤ stop →
  py_slice data start stop
  = take (Z.to_nat (Z.min stop (Z.of_nat (length data)) - start))
      (drop (Z.to_nat start) data).
Proof.
  intros H. unfold py_slice, slice_bound.
  destruct (Z.ltb_spec start 0); [lia|].
  destruct (Z.ltb_spec stop 0); [lia|].
  destruct (Z.le_gt_cases start (Z.of_nat (length data))).
  - by rewrite (Z.min_l start) by lia.
  - rewrite (Z.min_r start), (Z.min_r stop) by lia.
    rewrite !drop_ge by lia.
    by rewrite !take_nil.
Qed.

Lemma length_py_slice {B} (data : list A) (data' : list B) start stop :
  length data' = length data →
  length (py_slice data' start stop) = length (py_slice data start stop).
Proof.
  intros E. unfold py_slice. rewrite !length_take, !length_drop, E. done.
Qed.

Lemma length_get_data_slice (data data' : list A) c w :
  length data' = length data →
  length (get_data_slice data' c w) = length (get_data_slice data c w).
Proof.
  intros E. unfold get_data_slice. rewrite !length_app.
  by rewrite !(length_py_slice data data').
Qed.

(** Near the start of a recording the start of the left slice wraps
    around to the end, so the left slice is empty. *)
Lemma left_slice_wraps (data : list A) (c : Z) :
  (50 ≤ length data)%nat →
  0 ≤ c < 50 →
  slice_bound (Z.of_nat (length data)) (c - 50)
  = Z.of_nat (length data) + c - 50 ∧
  py_slice data (c - 50) c = [].
Proof.
  intros Hn Hc.
  assert (slice_bound (Z.of_nat (length data)) (c - 50)
          = Z.of_nat (length data) + c - 50) as Hb.
  { unfold slice_bound. destruct (Z.ltb_spec (c - 50) 0); lia. }
  split; [done|].
  apply py_slice_empty. rewrite Hb.
  unfold slice_bound. destruct (Z.ltb_spec c 0); lia.
Qed.

Lemma get_data_slice_right_only (data : list A) (c : Z) :
  (50 ≤ length data)%nat →
  0 ≤ c < 50 →
  get_data_slice data c default_window_size
  = take (Z.to_nat (Z.min (c + 50) (Z.of_nat (length data)) - c))
      (drop (Z.to_nat c) data).
Proof.
  intros Hn Hc. unfold get_data_slice, default_window_size.
  change (100 `div` 2) with 50.
  rewrite (proj2 (left_slice_wraps data c Hn Hc)). simpl.
  apply py_slice_forward. lia.
Qed.

End Slices.

(** C10. For a sequence of length n >= 50 and a centre index c with
    0 <= c < 50, the start [c - 50] of the left slice resolves to
    [n + c - 50 >= c], so the left slice is empty; with the default
    window size 100 the window is [data[c], ..., data[min(c+50, n) - 1]]
    and has [min(50, n - c)] elements. *)
Theorem get_data_slice_near_start {F : Type} (data : list F) (c : Z) :
  (50 ≤ length data)%nat →
  0 ≤ c < 50 →
  let n := Z.of_nat (length data) in
  slice_bound n (c - 50) = n + c - 50 ∧
  c ≤ n + c - 50 ∧
  py_slice data (c - 50) c = [] ∧
  get_data_slice data c default_window_size
  = take (Z.to_nat (Z.min (c + 50) n - c)) (drop (Z.to_nat c) data) ∧
  length (get_data_slice data c default_window_size)
  = Z.to_nat (Z.min 50 (n - c)) ∧
  ∀ j : nat,
    get_data_slice data c default_window_size !! j
    = if decide (Z.of_nat j < Z.min (c + 50) n - c)
      then data !! (Z.to_nat c + j)%nat else None.
Proof.
  intros Hn Hc n.
  destruct (left_slice_wraps data c Hn Hc) as [Hb Hleft].
  split; [done|]. split; [lia|]. split; [done|].
  split; [by apply get_data_slice_right_only|].
  rewrite get_data_slice_right_only by done. fold n. split.
  - rewrite length_take, length_drop. lia.
  - intros j. case_decide.
    + rewrite lookup_take_lt by lia. apply lookup_drop.
    + apply lookup_take_ge. lia.
Qed.

Lemma get_data_slice_near_start_witness :
  slice_bound 120 (40 - 50) = 120 + 40 - 50 ∧
  40 ≤ 120 + 40 - 50 ∧
  py_slice (ramp 120) (40 - 50) 40 = [] ∧
  get_data_slice (ramp 120) 40 default_window_size
  = take (Z.to_nat (Z.min (40 + 50) 120 - 40))
      (drop (Z.to_nat 40) (ramp 120)) ∧
  length (get_data_slice (ramp 120) 40 default_window_size)
  = Z.to_nat (Z.min 50 (120 - 40)) ∧
  ∀ j : nat,
    get_data_slice (ramp 120) 40 default_window_size !! j
    = if decide (Z.of_nat j < Z.min (40 + 50) 120 - 40)
      then ramp 120 !! (Z.to_nat 40 + j)%nat else None.
Proof.
  apply (get_data_slice_near_start (ramp 120) 40); [cbv; lia | lia].
Defined.

(** ** The label export *)

Section LabelExport.
Context {F : Type} {num : Number F} {lib : Library F}.

Lemma length_sample_lines (xs ys zs : list F) :
  length ys = length xs → length zs = length xs →
  length (sample_lines xs ys zs) = length xs.
Proof.
  revert ys zs. induction xs as [|xj xs IH]; intros [|yj ys] [|zj zs] Hy Hz;
    simpl in *; try done.
  f_equal. apply IH; lia.
Qed.

Lemma lookup_sample_lines (xs ys zs : list F) j xj yj zj :
  xs !! j = Some xj → ys !! j = Some yj → zs !! j = Some zj →
  sample_lines xs ys zs !! j = Some (sample_line xj yj zj).
Proof.
  revert ys zs j.
  induction xs as [|x0 xs IH]; intros [|y0 ys] [|z0 zs] [|j]; simpl;
    try done.
  - congruence.
  - apply IH.
Qed.

(** The inner loop appends the sample lines, one per sample. *)
Lemma write_samples (xs ys zs : list F) (file : list string) :
  length ys = length xs → length zs = length xs →
  for_range 0 (length xs) (write_sample xs ys zs) file
  = (Ok (), file ++ sample_lines xs ys zs).
Proof.
  intros Hy Hz.
  destruct (for_range_invariant
              (λ j written, written = file ++ take j (sample_lines xs ys zs))
              (write_sample xs ys zs) 0 (length xs) file)
    as (written & E & ->); [lia| | |].
  - by rewrite take_0, app_nil_r.
  - intros j t Hj ->.
    destruct (lookup_lt_is_Some_2 xs j) as [xj Ex]; [lia|].
    destruct (lookup_lt_is_Some_2 ys j) as [yj Ey]; [lia|].
    destruct (lookup_lt_is_Some_2 zs j) as [zj Ez]; [lia|].
    eexists. split.
    + unfold write_sample, lift, write, assign, mbind, stateful_bind.
      rewrite (getitem_Some _ _ _ Ex), (getitem_Some _ _ _ Ey),
        (getitem_Some _ _ _ Ez). reflexivity.
    + rewrite (take_S_r _ _ _ (lookup_sample_lines _ _ _ _ _ _ _ Ex Ey Ez)).
      by rewrite app_assoc.
  - rewrite E. f_equal. f_equal. apply take_ge.
    by rewrite length_sample_lines.
Qed.

(** One block of the export, for a label whose centre index is known. *)
Lemma write_label_block (self : Sensor F) label_timestamps labels i t c label
    file :
  length (y self) = length (x self) →
  length (z self) = length (x self) →
  label_timestamps !! i = Some t →
  center_timestamp_index self t = Ok c →
  labels !! i = Some label →
  write_label self label_timestamps labels i file
  = (Ok (),
     file ++ ["label " +:+ label +:+ newline; "x,y,z" +:+ newline]
       ++ sample_lines (get_data_slice (x self) c default_window_size)
            (get_data_slice (y self) c default_window_size)
            (get_data_slice (z self) c default_window_size)
       ++ [newline]).
Proof.
  intros Hy Hz Et Ec El.
  unfold write_label.
  unfold mbind at 1, stateful_bind at 1, lift at 1.
  rewrite (getitem_Some _ _ _ Et).
  unfold mbind at 1, stateful_bind at 1, lift at 1. rewrite Ec.
  unfold mbind at 1, stateful_bind at 1, lift at 1.
  rewrite (getitem_Some _ _ _ El).
  unfold mbind at 1, stateful_bind at 1, write at 1, assign at 1.
  unfold mbind at 1, stateful_bind at 1, write at 1, assign at 1.
  unfold mbind at 1, stateful_bind at 1.
  rewrite write_samples by (by apply length_get_data_slice).
  unfold write, assign.
  f_equal. rewrite <- !app_assoc. done.
Qed.

End LabelExport.

(** C4, at a concrete input: a recording of 101 samples whose sample
    nearest to the stamp 100 is at index 40.  The export writes one
    block that begins with [label tap] and [x,y,z], and the block has 50
    sample lines, not 100. *)
Lemma label_block_at_index_40_is_short :
  center_timestamp_index (recording 101) 100 = Ok 40 ∧
  ∃ lines,
    label_segmentation (lib := stand_in) (recording 101) "session" [100]
      ["tap"%string]
    = (Ok (), ["label tap" +:+ newline; "x,y,z" +:+ newline] ++ lines
              ++ [newline]) ∧
    length lines = 50%nat ∧
    length lines ≠ 100%nat.
Proof.
  split; [vm_compute; reflexivity|].
  exists (replicate 50 ("0.0,0.0,0.0" +:+ newline)).
  split; [vm_compute; reflexivity|]. split; [reflexivity|].
  rewrite length_replicate. lia.
Qed.

(** C4, as the code has it: for a stream of more than 100 samples
    whose sample nearest to the stamp 100 is at index 40,
    [label_segmentation] with the stamps [100] and the labels ["tap"]
    writes exactly one block: the line [label tap], the header [x,y,z],
    one line per sample of the window that [get_data_slice] takes around
    index 40, and an empty line.  That window is shorter than the
    window size 100. *)
Theorem label_block_holds_the_window {F : Type} {num : Number F}
    {lib : Library F} (self : Sensor F) (session_id : string) :
  (100 < length (x self))%nat →
  length (y self) = length (x self) →
  length (z self) = length (x self) →
  center_timestamp_index self 100 = Ok 40 →
  ∃ lines,
    label_segmentation self session_id [100] ["tap"%string]
    = (Ok (), ["label tap" +:+ newline; "x,y,z" +:+ newline] ++ lines
              ++ [newline]) ∧
    lines = sample_lines (get_data_slice (x self) 40 default_window_size)
              (get_data_slice (y self) 40 default_window_size)
              (get_data_slice (z self) 40 default_window_size) ∧
    length lines = length (get_data_slice (x self) 40 default_window_size) ∧
    (length lines < 100)%nat.
Proof.
  intros Hn Hy Hz Hc.
  eexists. split; [|split; [reflexivity|]].
  - unfold label_segmentation, for_range. simpl.
    unfold mbind, stateful_bind.
    rewrite (write_label_block self [100] ["tap"%string] 0 100 40 "tap")
      by done.
    reflexivity.
  - rewrite length_sample_lines by (by apply length_get_data_slice).
    split; [done|].
    rewrite get_data_slice_right_only by lia.
    rewrite length_take, length_drop. lia.
Qed.

Lemma label_block_holds_the_window_witness :
  ∃ lines,
    label_segmentation (lib := stand_in) (recording 101) "session" [100]
      ["tap"%string]
    = (Ok (), ["label tap" +:+ newline; "x,y,z" +:+ newline] ++ lines
              ++ [newline]) ∧
    lines = sample_lines (lib := stand_in)
              (get_data_slice (x (recording 101)) 40 default_window_size)
              (get_data_slice (y (recording 101)) 40 default_window_size)
              (get_data_slice (z (recording 101)) 40 default_window_size) ∧
    length lines
    = length (get_data_slice (x (recording 101)) 40 default_window_size) ∧
    (length lines < 100)%nat.
Proof.
  apply (label_block_holds_the_window (lib := stand_in) (recording 101)
           "session");
    [cbv; lia | reflexivity | reflexivity | vm_compute; reflexivity].
Defined.

(** ** The filtering stages on a merged signal *)

Section Filters.
Context {F : Type} {num : Number F} {lib : Library F}.

(** With a merged signal in place, a filtering stage replaces it by
    what it computes from it, or raises and leaves the sensor as it
    was. *)
Lemma run_filter_on_mean_signal (f : filter F) (self : Sensor F) signal :
  mean_signal self = Some signal →
  run_filter f self
  = match filtered f self signal with
    | Ok r => (Ok (), set_mean_signal (Some r) self)
    | Raise e => (Raise e, self)
    end.
Proof.
  intros Hm.
  destruct f as [w|fr ty|]; simpl;
    unfold apply_median_filter, apply_filter, apply_kalman_filter,
      mbind, stateful_bind, read, lift, assign; rewrite Hm; simpl.
  - by destruct (medfilt signal w).
  - by destruct (apply_butter_filter signal fr ty default_order).
  - by destruct (get_kalman_filter_estimate self signal).
Qed.

End Filters.

(** C5. Once [mean_signal] holds a signal, each filtering stage
    (median, band, Kalman) leaves x, y and z as they were, and its
    outcome and the new [mean_signal] are those of any other sensor
    with the same [mean_signal] and the same two variances, whatever
    that sensor's axes hold: the stage reads and writes the merged
    signal only. *)
Theorem filters_act_on_mean_signal_only {F : Type} {num : Number F}
    {lib : Library F} (f : filter F) (self : Sensor F) (signal : list F) :
  mean_signal self = Some signal →
  ∃ outcome self',
    run_filter f self = (outcome, self') ∧
    x self' = x self ∧ y self' = y self ∧ z self' = z self ∧
    ∀ other : Sensor F,
      mean_signal other = Some signal →
      process_variance_q other = process_variance_q self →
      measurement_variance_estimate other
        = measurement_variance_estimate self →
      ∃ other',
        run_filter f other = (outcome, other') ∧
        mean_signal other' = mean_signal self' ∧
        x other' = x other ∧ y other' = y other ∧ z other' = z other.
Proof.
  intros Hm.
  assert (∀ other : Sensor F,
            process_variance_q other = process_variance_q self →
            measurement_variance_estimate other
              = measurement_variance_estimate self →
            filtered f other signal = filtered f self signal) as Hsame.
  { intros other Hq Hr. destruct f; simpl; [done..|].
    by apply get_kalman_filter_estimate_parameters. }
  rewrite (run_filter_on_mean_signal f self signal Hm).
  destruct (filtered f self signal) as [r|e] eqn:Er.
  - exists (Ok ()), (set_mean_signal (Some r) self).
    repeat split. intros other Hm' Hq Hr.
    exists (set_mean_signal (Some r) other).
    rewrite (run_filter_on_mean_signal f other signal Hm'),
      (Hsame other Hq Hr).
    done.
  - exists (Raise e), self.
    repeat split. intros other Hm' Hq Hr.
    exists other.
    rewrite (run_filter_on_mean_signal f other signal Hm'),
      (Hsame other Hq Hr).
    rewrite Hm, Hm'. done.
Qed.

Lemma filters_act_on_mean_signal_only_witness :
  ∃ outcome self',
    run_filter (lib := stand_in) KalmanFilter
      (merged [1; 2]%float [3]%float [4]%float [5]%float)
    = (outcome, self') ∧
    x self' = [3]%float ∧ y self' = [4]%float ∧ z self' = [5]%float ∧
    ∀ other : Sensor float,
      mean_signal other = Some [1; 2]%float →
      process_variance_q other = Some 0.5%float →
      measurement_variance_estimate other = Some 1%float →
      ∃ other',
        run_filter (lib := stand_in) KalmanFilter other = (outcome, other') ∧
        mean_signal other' = mean_signal self' ∧
        x other' = x other ∧ y other' = y other ∧ z other' = z other.
Proof.
  apply (filters_act_on_mean_signal_only (lib := stand_in) KalmanFilter
           (merged [1; 2]%float [3]%float [4]%float [5]%float) [1; 2]%float).
  reflexivity.
Defined.

(** ** The band filter *)

Section BandFilter.
Context {F : Type} {num : Number F} {lib : Library F}.

(** A band filter that raises leaves the sensor as it was: the first
    signal it filters is the first thing it would replace. *)
Lemma apply_filter_raises (frequency : F) (type : string) (e : exception)
    (self : Sensor F) :
  (∀ data, apply_butter_filter data frequency type default_order = Raise e) →
  apply_filter frequency type self = (Raise e, self).
Proof.
  intros He. unfold apply_filter, mbind, stateful_bind, read, lift.
  destruct (mean_signal self); simpl; by rewrite He.
Qed.

Lemma apply_butter_filter_no_cutoff (data : list F) (frequency : F)
    (type : string) (e : exception) :
  normal_cutoff frequency = Raise e →
  apply_butter_filter data frequency type default_order = Raise e.
Proof. intros E. unfold apply_butter_filter. by rewrite E. Qed.

Lemma apply_butter_filter_cutoff (data : list F) (frequency cutoff : F)
    (type : string) :
  normal_cutoff frequency = Ok cutoff →
  apply_butter_filter data frequency type default_order
  = '(b, a) ← butter 6 cutoff type false; lfilter b a data.
Proof. intros E. unfold apply_butter_filter. by rewrite E. Qed.

End BandFilter.

(** C2. Let the design routine refuse a digital critical frequency
    of 1 or more with its [ValueError], as [scipy.signal.butter] does.
    The normalized cutoff is [0.5 / (0.5 * frequency)], and the division
    raises when [0.5 * frequency] is 0.  For every frequency whose
    cutoff is 1 or more the band filter fails with that error on every
    signal, and the stage leaves the sensor as it was; it fails in the
    same way when the cutoff cannot be computed.  When the design
    routine returns coefficients, which it does only for a cutoff below
    1, the band filter returns what [lfilter] makes of the coefficients
    of the digital design of order 6 and of the requested type at that
    cutoff. *)
Theorem butter_filter_fails_from_cutoff_one {lib : Library float}
    (frequency : float) (type : string) :
  (∀ order Wn btype,
     PrimFloat.leb 1 Wn = true →
     butter order Wn btype false = Raise ValueError) →
  normal_cutoff frequency
  = (if PrimFloat.eqb (0.5 * frequency) 0 then Raise ZeroDivisionError
     else Ok (0.5 / (0.5 * frequency))%float) ∧
  (∀ cutoff,
     normal_cutoff frequency = Ok cutoff →
     PrimFloat.leb 1 cutoff = true →
     (∀ data, apply_butter_filter data frequency type default_order
              = Raise ValueError) ∧
     (∀ self, apply_filter frequency type self = (Raise ValueError, self))) ∧
  (∀ e,
     normal_cutoff frequency = Raise e →
     e = ZeroDivisionError ∧
     (∀ data, apply_butter_filter data frequency type default_order
              = Raise e) ∧
     (∀ self, apply_filter frequency type self = (Raise e, self))) ∧
  (∀ cutoff b a data,
     normal_cutoff frequency = Ok cutoff →
     butter 6 cutoff type false = Ok (b, a) →
     PrimFloat.leb 1 cutoff = false ∧
     apply_butter_filter data frequency type default_order
     = lfilter b a data).
Proof.
  intros Hrange. split; [reflexivity|]. split; [|split].
  - intros cutoff Ec Hc.
    assert (∀ data, apply_butter_filter data frequency type default_order
                    = Raise ValueError) as Hb.
    { intros data. rewrite (apply_butter_filter_cutoff _ _ cutoff) by done.
      by rewrite Hrange. }
    split; [done|]. intros self. by apply apply_filter_raises.
  - intros e Ee.
    split.
    { unfold normal_cutoff, truediv in Ee.
      destruct (is_zero _); by simplify_eq. }
    split.
    + intros data. by apply apply_butter_filter_no_cutoff.
    + intros self. apply apply_filter_raises.
      intros data. by apply apply_butter_filter_no_cutoff.
  - intros cutoff b a data Ec Eb. split.
    + destruct (PrimFloat.leb 1 cutoff) eqn:Hc; [|done].
      rewrite Hrange in Eb by done. done.
    + rewrite (apply_butter_filter_cutoff _ _ cutoff) by done.
      by rewrite Eb.
Qed.

Lemma butter_filter_fails_from_cutoff_one_witness :
  (normal_cutoff 1%float = Ok 1%float ∧
   PrimFloat.leb 1 1 = true ∧
   apply_butter_filter (lib := range_checked) [1; 2; 3]%float 1%float "low"
     default_order = Raise ValueError ∧
   apply_filter (lib := range_checked) 1%float "low"
     (merged [1; 2; 3]%float [] [] [])
   = (Raise ValueError, merged [1; 2; 3]%float [] [] [])) ∧
  (normal_cutoff 4%float = Ok 0.25%float ∧
   PrimFloat.leb 1 0.25 = false ∧
   apply_butter_filter (lib := range_checked) [1; 2; 3]%float 4%float "low"
     default_order = Ok [1; 2; 3]%float).
Proof.
  assert (∀ order Wn btype,
            PrimFloat.leb 1 Wn = true →
            butter (Library := range_checked) order Wn btype false
            = Raise ValueError) as Hrange.
  { intros order Wn btype HWn. simpl. rewrite HWn. by rewrite orb_true_r. }
  split.
  - destruct (butter_filter_fails_from_cutoff_one (lib := range_checked)
                1%float "low" Hrange) as (_ & Hfail & _).
    destruct (Hfail 1%float eq_refl eq_refl) as [Hb Hs].
    exact (conj eq_refl (conj eq_refl (conj (Hb _) (Hs _)))).
  - destruct (butter_filter_fails_from_cutoff_one (lib := range_checked)
                4%float "low" Hrange) as (_ & _ & _ & Hvalid).
    destruct (Hvalid 0.25%float [1%float] [1%float] [1; 2; 3]%float
                eq_refl eq_refl) as [Hc Hb].
    exact (conj eq_refl (conj Hc Hb)).
Defined.

(** ** The order of the stages *)

Section Pipeline.
Context {F : Type} {num : Number F} {lib : Library F}.

Lemma run_stages_cons (s : stage F) (stages : list (stage F)) :
  run_stages (s :: stages) = (run_stage s;; notify s;; run_stages stages).
Proof. done. Qed.

Lemma plot_configuration title (self : Sensor F) outcome self' :
  plot title self = (outcome, self') →
  outcome = Ok () ∧ configuration self' = configuration self.
Proof.
  unfold plot, mbind, stateful_bind, read, assign. simpl.
  destruct (view self); [destruct (mean_signal self)|];
    intros [= <- <-]; done.
Qed.

Lemma plot_view_only title (self : Sensor F) :
  ∃ v, plot title self = (Ok (), set_view v self).
Proof.
  unfold plot, mbind, stateful_bind, read, assign. simpl.
  destruct (view self) as [calls|] eqn:Ev; [destruct (mean_signal self)|];
    eauto.
  exists None. destruct self; simpl in *; by subst.
Qed.

Lemma view_show_view_only (self : Sensor F) :
  ∃ v, view_show self = (Ok (), set_view v self).
Proof.
  unfold view_show, mbind, stateful_bind, read, assign. simpl.
  destruct (view self) as [calls|] eqn:Ev; eauto.
  exists None. destruct self; simpl in *; by subst.
Qed.

Lemma apply_median_filter_configuration w (self : Sensor F) outcome self' :
  apply_median_filter w self = (outcome, self') →
  configuration self' = configuration self.
Proof.
  unfold apply_median_filter, mbind, stateful_bind, read, lift, assign. simpl.
  destruct (mean_signal self).
  - destruct (medfilt _ _); intros [= <- <-]; done.
  - destruct (medfilt (x self) w); simpl; [|intros [= <- <-]; done].
    destruct (medfilt (y self) w); simpl; [|intros [= <- <-]; done].
    destruct (medfilt (z self) w); simpl; intros [= <- <-]; done.
Qed.

Lemma configuration_fields (self self' : Sensor F) :
  configuration self' = configuration self →
  median_filter_window_size self' = median_filter_window_size self ∧
  sampling_rate self' = sampling_rate self ∧
  filter_type self' = filter_type self.
Proof. unfold configuration. intros [= -> -> ->]. done. Qed.

(** [process] is the run of the selected stages between the first
    notification and the request to show the view. *)
Lemma process_runs_the_pipeline (merge_axis : bool) (self : Sensor F) :
  process merge_axis self
  = (plot "raw";; run_stages (pipeline merge_axis self);; view_show) self.
Proof.
  assert (∀ s,
    (apply_kalman_filter;; plot "kalman filter";; view_show) s
    = (run_stages [KalmanEstimator];; view_show) s) as Hkalman.
  { intros s. rewrite run_stages_cons. simpl.
    same_step as [] s1 E1. same_step as [] s2 E2. by normalise. }
  assert (∀ s, configuration s = configuration self →
    (r ← read sampling_rate; t ← read filter_type;
     match r, t with
     | Some rate, Some type =>
         f ← lift (get_frequency rate);
         apply_filter f type;; plot (type +:+ " filter")
     | _, _ => mret ()
     end;;
     apply_kalman_filter;; plot "kalman filter";; view_show) s
    = (run_stages
         (match sampling_rate self, filter_type self with
          | Some rate, Some type => [BandFilterStage rate type]
          | _, _ => []
          end ++ [KalmanEstimator]);; view_show) s) as Hband.
  { intros s C. apply configuration_fields in C as (_ & Cr & Ct).
    rewrite !bind_read, Cr, Ct.
    destruct (sampling_rate self) as [rate|];
      [destruct (filter_type self) as [type|]|].
    - simpl app. rewrite run_stages_cons. simpl run_stage. simpl notify.
      same_step as f s1 E1. same_step as [] s2 E2. same_step as [] s3 E3.
      normalise. apply Hkalman.
    - normalise. apply Hkalman.
    - normalise. apply Hkalman. }
  assert (∀ s, configuration s = configuration self →
    (w ← read median_filter_window_size;
     match w with
     | Some window_size =>
         apply_median_filter window_size;; plot "median filter"
     | None => mret ()
     end;;
     r ← read sampling_rate; t ← read filter_type;
     match r, t with
     | Some rate, Some type =>
         f ← lift (get_frequency rate);
         apply_filter f type;; plot (type +:+ " filter")
     | _, _ => mret ()
     end;;
     apply_kalman_filter;; plot "kalman filter";; view_show) s
    = (run_stages
         (match median_filter_window_size self with
          | Some window_size => [MedianSmoother window_size]
          | None => []
          end
          ++ match sampling_rate self, filter_type self with
             | Some rate, Some type => [BandFilterStage rate type]
             | _, _ => []
             end ++ [KalmanEstimator]);; view_show) s) as Hmedian.
  { intros s C. rewrite bind_read.
    rewrite (proj1 (configuration_fields _ _ C)).
    destruct (median_filter_window_size self) as [window_size|].
    - simpl app. rewrite run_stages_cons. simpl run_stage. simpl notify.
      same_step as [] s1 E1. apply apply_median_filter_configuration in E1.
      same_step as [] s2 E2. apply plot_configuration in E2 as [_ C2].
      normalise. apply Hband. by rewrite C2, E1.
    - normalise. by apply Hband. }
  unfold process, pipeline.
  apply bind_congruence; intros [] s1 E1.
  apply plot_configuration in E1 as [_ C1].
  simpl app. rewrite run_stages_cons. simpl run_stage. simpl notify.
  same_step as [] s2 E2.
  assert (configuration s2 = configuration self) as C2.
  { rewrite normalize_normalized in E2. injection E2 as E2. subst s2.
    exact C1. }
  same_step as [] s3 E3. apply plot_configuration in E3 as [_ C3].
  rewrite C2 in C3.
  destruct merge_axis.
  - simpl app. rewrite run_stages_cons. simpl run_stage. simpl notify.
    same_step as s s4 E4. injection E4 as E4 E4'. subst s s4.
    same_step as m s5 E5. injection E5 as _ E5. subst s5.
    same_step as [] s6 E6. injection E6 as E6. subst s6.
    normalise. apply Hmedian. exact C3.
  - normalise. by apply Hmedian.
Qed.

Lemma pipeline_ranks_increase (merge_axis : bool) (self : Sensor F) :
  StronglySorted lt (rank <$> pipeline merge_axis self).
Proof.
  unfold pipeline.
  destruct merge_axis, (median_filter_window_size self),
    (sampling_rate self), (filter_type self); simpl;
    repeat (constructor; [|repeat constructor; lia]); constructor.
Qed.

End Pipeline.

(** C6. One call of [process] runs, between the notification of the
    raw data and the request to show the view, the stages that
    [pipeline] selects, in that order and each followed by its
    notification, ending at the first exception: normalisation, then
    the merge exactly when [merge_axis] is set, then the median filter
    exactly when [median_filter_window_size] is set, then the band
    filter exactly when both [sampling_rate] and [filter_type] are set,
    then the Kalman filter.  Normalisation is always the first stage
    and the Kalman filter always the last.  With the optional stages
    switched off, a fresh sensor with non-empty axes and both variances
    set is processed without error. *)
Theorem process_runs_stages_in_order {F : Type} {num : Number F}
    {lib : Library F} (merge_axis : bool) (self : Sensor F) :
  process merge_axis self
  = (plot "raw";; run_stages (pipeline merge_axis self);; view_show) self ∧
  StronglySorted lt (rank <$> pipeline merge_axis self) ∧
  head (pipeline merge_axis self) = Some Normalizer ∧
  last (pipeline merge_axis self) = Some KalmanEstimator ∧
  (Merger ∈ pipeline merge_axis self ↔ merge_axis = true) ∧
  (∀ window_size,
     MedianSmoother window_size ∈ pipeline merge_axis self
     ↔ median_filter_window_size self = Some window_size) ∧
  (∀ rate type,
     BandFilterStage rate type ∈ pipeline merge_axis self
     ↔ sampling_rate self = Some rate ∧ filter_type self = Some type) ∧
  (∀ q r,
     merge_axis = false →
     median_filter_window_size self = None →
     sampling_rate self = None ∨ filter_type self = None →
     mean_signal self = None →
     x self ≠ [] → y self ≠ [] → z self ≠ [] →
     process_variance_q self = Some q →
     measurement_variance_estimate self = Some r →
     pipeline merge_axis self = [Normalizer; KalmanEstimator] ∧
     ∃ self', process merge_axis self = (Ok (), self')).
Proof.
  split; [apply process_runs_the_pipeline|].
  split; [apply pipeline_ranks_increase|].
  split; [done|].
  split.
  { unfold pipeline.
    by destruct merge_axis, (median_filter_window_size self),
      (sampling_rate self), (filter_type self). }
  split.
  { unfold pipeline.
    destruct merge_axis, (median_filter_window_size self),
      (sampling_rate self), (filter_type self); simpl;
      rewrite ?elem_of_cons, ?elem_of_nil;
      intuition (discriminate || congruence). }
  split.
  { intros w. unfold pipeline.
    destruct merge_axis, (median_filter_window_size self),
      (sampling_rate self), (filter_type self); simpl;
      rewrite ?elem_of_cons, ?elem_of_nil;
      intuition (discriminate || congruence). }
  split.
  { intros rate type. unfold pipeline.
    destruct merge_axis, (median_filter_window_size self),
      (sampling_rate self), (filter_type self); simpl;
      rewrite ?elem_of_cons, ?elem_of_nil;
      intuition (discriminate || congruence). }
  intros q r -> Hw Hband Hm Hx Hy Hz Hq Hr.
  assert (pipeline false self = [Normalizer; KalmanEstimator]) as Hp.
  { unfold pipeline. rewrite Hw.
    destruct Hband as [-> | ->]; [done|].
    by destruct (sampling_rate self). }
  split; [done|].
  rewrite process_runs_the_pipeline, Hp.
  destruct (plot_view_only "raw" self) as [v1 E1].
  rewrite (bind_ok _ _ _ _ _ E1).
  rewrite !run_stages_cons. simpl run_stage. simpl notify. simpl run_stages.
  normalise.
  rewrite (bind_ok _ _ _ _ _ (normalize_normalized _)).
  destruct (plot_view_only "normalize" (normalized (set_view v1 self)))
    as [v2 E2].
  normalise. rewrite (bind_ok _ _ _ _ _ E2).
  destruct (apply_kalman_filter_per_axis
              (set_view v2 (normalized (set_view v1 self))) q r)
    as [s3 E3]; [done|by apply centered_nonempty..|done|done|].
  normalise. rewrite (bind_ok _ _ _ _ _ E3).
  destruct (plot_view_only "kalman filter" s3) as [v4 E4].
  normalise. rewrite (bind_ok _ _ _ _ _ E4).
  normalise. destruct (view_show_view_only (set_view v4 s3)) as [v5 E5].
  eauto.
Qed.

Lemma process_runs_stages_in_order_witness :
  pipeline false (recording 3) = [Normalizer; KalmanEstimator] ∧
  ∃ self', process (lib := stand_in) false (recording 3) = (Ok (), self').
Proof.
  apply (process_runs_stages_in_order (lib := stand_in) false (recording 3))
    with (q := 0.5%float) (r := 1%float);
    first [ reflexivity | discriminate | by left ].
Defined.

(** * Further properties *)

(** ** More on sequencing and loops *)

Lemma bind_raise {S A B} (m : stateful S A) (k : A → stateful S B) s e s' :
  m s = (Raise e, s') → (m ≫= k) s = (Raise e, s').
Proof. intros E. unfold mbind, stateful_bind. by rewrite E. Qed.

(** A loop whose body raises at index [j], after [j - lo] good
    iterations. *)
Lemma for_range_from_raise {S} (Inv : nat → S → Prop) (Post : S → Prop)
    body e count :
  ∀ lo j s,
    (lo ≤ j < lo + count)%nat →
    Inv lo s →
    (∀ i t, (lo ≤ i < j)%nat → Inv i t →
            ∃ t', body i t = (Ok (), t') ∧ Inv (Datatypes.S i) t') →
    (∀ t, Inv j t → ∃ t', body j t = (Raise e, t') ∧ Post t') →
    ∃ s', for_range_from lo count body s = (Raise e, s') ∧ Post s'.
Proof.
  induction count as [|count IH]; intros lo j s Hj Hs Hbody Hraise; [lia|].
  simpl. destruct (decide (lo = j)) as [->|Hne].
  - destruct (Hraise s Hs) as (t' & E & Ht'). exists t'.
    by rewrite (bind_raise _ _ _ _ _ E).
  - destruct (Hbody lo s) as (t & Et & Ht); [lia|done|].
    rewrite (bind_ok _ _ _ _ _ Et).
    apply (IH (Datatypes.S lo) j t); [lia|done| |done].
    intros i u Hi. apply Hbody. lia.
Qed.

Lemma for_range_raise {S} (Inv : nat → S → Prop) (Post : S → Prop)
    body e lo hi j s :
  (lo ≤ j < hi)%nat →
  Inv lo s →
  (∀ i t, (lo ≤ i < j)%nat → Inv i t →
          ∃ t', body i t = (Ok (), t') ∧ Inv (Datatypes.S i) t') →
  (∀ t, Inv j t → ∃ t', body j t = (Raise e, t') ∧ Post t') →
  ∃ s', for_range lo hi body s = (Raise e, s') ∧ Post s'.
Proof.
  intros Hj. unfold for_range.
  apply (for_range_from_raise Inv Post body e (hi - lo) lo j s). lia.
Qed.

(** Two bodies that agree on the indices of the loop give the same
    loop. *)
Lemma for_range_from_ext_in {S} (body body' : nat → stateful S unit) count :
  ∀ lo s, (∀ i t, (lo ≤ i < lo + count)%nat → body i t = body' i t) →
    for_range_from lo count body s = for_range_from lo count body' s.
Proof.
  induction count as [|count IH]; intros lo s E; simpl; [done|].
  unfold mbind, stateful_bind. rewrite E by lia.
  destruct (body' lo s) as [[[]|e] t]; [|done].
  apply IH. intros i u Hi. apply E. lia.
Qed.

(** ** Edges of the Kalman estimator *)

Section KalmanEdges.
Context {F : Type} {num : Number F}.



(** X1. On empty data the estimator raises [IndexError] (the write
    to index 0 of an empty array); on a single sample it returns [0],
    whatever the sample and the variances, set or not. *)
Theorem kalman_short_data (self : Sensor F)
    (d : F) :
  get_kalman_filter_estimate self [] = Raise IndexError ∧
  get_kalman_filter_estimate self [d] = Ok [of_Z 0].
Proof. split; reflexivity. Qed.

Lemma kalman_step_data (self : Sensor F) d d' data i k :
  (1 ≤ i)%nat →
  kalman_step self (d :: data) i k = kalman_step self (d' :: data) i k.
Proof.
  intros Hi. unfold kalman_step.
  destruct i as [|i]; [lia|]. done.
Qed.

(** X3. The estimator never reads the first sample: two inputs that
    differ in [data[0]] only give the same outcome. *)
Theorem kalman_ignores_first_sample (self : Sensor F) (d d' : F)
    (data : list F) :
  get_kalman_filter_estimate self (d :: data)
  = get_kalman_filter_estimate self (d' :: data).
Proof.
  unfold get_kalman_filter_estimate, kalman_run. simpl length.
  unfold mbind, stateful_bind.
  destruct (set_a_posteriori_estimate _ _ _) as [[[]|e] k]; [|done].
  destruct (set_a_posteriori_error_estimate _ _ _) as [[[]|e] k']; [|done].
  unfold for_range.
  rewrite (for_range_from_ext_in (kalman_step self (d :: data))
             (kalman_step self (d' :: data))); [done|].
  intros i t Hi. apply kalman_step_data. lia.
Qed.

Lemma kalman_step_unset (self : Sensor F) data i k :
  process_variance_q self = None ∨ measurement_variance_estimate self = None →
  kalman_lengths (length data) k →
  (1 ≤ i < length data)%nat →
  ∃ k', kalman_step self data i k = (Raise TypeError, k').
Proof.
  intros H (L1 & L2 & L3 & L4 & L5) Hi.
  destruct (lookup_lt_is_Some_2 (a_posteriori_estimate k) (i - 1)) as [e Ee];
    [lia|].
  destruct (lookup_lt_is_Some_2 (a_posteriori_error_estimate k) (i - 1))
    as [p Ep]; [lia|].
  unfold kalman_step, get, lift, set_a_priori_estimate,
    set_a_priori_error_estimate, set_blending_factor_gain,
    set_a_posteriori_estimate, set_a_posteriori_error_estimate,
    mbind, stateful_bind.
  simpl.
  rewrite (getitem_Some _ _ _ Ee). rewrite setitem_lt by lia. simpl.
  rewrite (getitem_Some _ _ _ Ep).
  destruct (process_variance_q self) as [q|]; simpl; [|eauto].
  destruct H as [H|H]; [done|]. rewrite H.
  rewrite setitem_lt by lia. simpl.
  rewrite (getitem_Some _ i (p + q)%num)
    by (apply list_lookup_insert_eq; lia).
  simpl. eauto.
Qed.

Lemma kalman_raises_without_variance (self : Sensor F) (data : list F) :
  process_variance_q self = None ∨ measurement_variance_estimate self = None →
  (2 ≤ length data)%nat →
  get_kalman_filter_estimate self data = Raise TypeError.
Proof.
  intros H Hn. unfold get_kalman_filter_estimate, kalman_run.
  unfold mbind at 1, stateful_bind at 1, set_a_posteriori_estimate at 1.
  rewrite setitem_lt by (simpl; rewrite length_np_zeros; lia).
  unfold mbind at 1, stateful_bind at 1, set_a_posteriori_error_estimate at 1.
  simpl a_posteriori_error_estimate.
  rewrite setitem_lt by (rewrite length_np_zeros; lia).
  match goal with |- context [for_range 1 _ _ ?k0] =>
    destruct (for_range_raise (λ _ k, kalman_lengths (length data) k)
                (λ _, True) (kalman_step self data) TypeError 1
                (length data) 1 k0) as (k' & -> & _)
  end; [lia| | | |done].
  - unfold kalman_lengths. simpl.
    rewrite !length_insert, !length_np_zeros. done.
  - intros; lia.
  - intros t Ht. destruct (kalman_step_unset self data 1 t H Ht) as [k' E];
      [lia|]. eauto.
Qed.
(** X2. With a variance left unset, the estimator raises [TypeError]
    on every input of two samples or more. *)
Theorem kalman_unset_variance_raises (self : Sensor F) (data : list F) :
  process_variance_q self = None ∨ measurement_variance_estimate self = None →
  (2 ≤ length data)%nat →
  get_kalman_filter_estimate self data = Raise TypeError.
Proof. apply kalman_raises_without_variance. Qed.

(** X7. The per-axis Kalman stage is not atomic: when the y axis is
    empty and the x axis is not, the stage raises [IndexError] after it
    has replaced x by its estimate. *)
Theorem apply_kalman_filter_is_not_atomic (self : Sensor F) (q r : F) :
  mean_signal self = None →
  x self ≠ [] →
  y self = [] →
  process_variance_q self = Some q →
  measurement_variance_estimate self = Some r →
  ∃ estimate,
    get_kalman_filter_estimate self (x self) = Ok estimate ∧
    apply_kalman_filter self = (Raise IndexError, set_x estimate self).
Proof.
  intros Hm Hx Hy Hq Hr.
  destruct (get_kalman_filter_estimate_returns self (x self) q r Hx Hq Hr)
    as [est Ee].
  exists est. split; [done|].
  unfold apply_kalman_filter, mbind, stateful_bind, read, lift, assign.
  rewrite Hm. simpl. rewrite Ee. simpl. rewrite Hy. done.
Qed.

End KalmanEdges.

Lemma kalman_unset_variance_raises_witness :
  get_kalman_filter_estimate (at_rest [] [] [] (Some 0.5%float) None)
    [1; 2]%float = Raise TypeError.
Proof.
  apply (kalman_unset_variance_raises
           (at_rest [] [] [] (Some 0.5%float) None) [1; 2]%float);
    [by right | simpl; lia].
Defined.

Lemma apply_kalman_filter_is_not_atomic_witness :
  ∃ estimate,
    get_kalman_filter_estimate
      (at_rest [1; 2]%float [] [5]%float (Some 0.5%float) (Some 1%float))
      [1; 2]%float = Ok estimate ∧
    apply_kalman_filter
      (at_rest [1; 2]%float [] [5]%float (Some 0.5%float) (Some 1%float))
    = (Raise IndexError,
       set_x estimate
         (at_rest [1; 2]%float [] [5]%float (Some 0.5%float) (Some 1%float))).
Proof.
  apply (apply_kalman_filter_is_not_atomic
           (at_rest [1; 2]%float [] [5]%float (Some 0.5%float) (Some 1%float))
           0.5%float 1%float);
    first [ reflexivity | discriminate ].
Defined.

(** ** The merge on axes of different lengths *)

Section MeanEdges.
Context {F : Type} {num : Number F}.

Lemma mean_step_ok (self : Sensor F) j mean :
  (j < length (x self))%nat → (j < length (y self))%nat →
  (j < length (z self))%nat →
  length mean = length (x self) →
  ∃ mean', mean_step self j mean = (Ok (), mean') ∧
           length mean' = length (x self).
Proof.
  intros Hx Hy Hz Hlen.
  destruct (lookup_lt_is_Some_2 (x self) j) as [xj Ex]; [lia|].
  destruct (lookup_lt_is_Some_2 (y self) j) as [yj Ey]; [lia|].
  destruct (lookup_lt_is_Some_2 (z self) j) as [zj Ez]; [lia|].
  exists (<[j := ((xj + yj + zj) / of_Z 3)%num]> mean). split.
  - unfold mean_step, lift, read, assign, mbind, stateful_bind.
    rewrite (getitem_Some _ _ _ Ex), (getitem_Some _ _ _ Ey),
      (getitem_Some _ _ _ Ez). simpl.
    rewrite setitem_lt by lia. done.
  - by rewrite length_insert.
Qed.

Lemma mean_step_short (self : Sensor F) j mean :
  (j < length (x self))%nat →
  (length (y self) ≤ j ∨ length (z self) ≤ j)%nat →
  ∃ mean', mean_step self j mean = (Raise IndexError, mean').
Proof.
  intros Hx Hshort.
  destruct (lookup_lt_is_Some_2 (x self) j) as [xj Ex]; [lia|].
  unfold mean_step, lift, read, assign, mbind, stateful_bind.
  rewrite (getitem_Some _ _ _ Ex).
  destruct (y self !! j) as [yj|] eqn:Ey.
  - rewrite (getitem_Some _ _ _ Ey).
    destruct Hshort as [H|H].
    { apply lookup_lt_Some in Ey. lia. }
    unfold getitem. rewrite (lookup_ge_None_2 (z self) j) by lia. eauto.
  - unfold getitem at 1. rewrite Ey. eauto.
Qed.

Lemma mean_step_invariant_longer (self : Sensor F) j mean :
  (j < length (x self))%nat → (j < length (y self))%nat →
  (j < length (z self))%nat →
  mean_invariant self j mean →
  ∃ mean', mean_step self j mean = (Ok (), mean') ∧
           mean_invariant self (Datatypes.S j) mean'.
Proof.
  intros Hx Hy Hz [Hlen Hmean].
  destruct (lookup_lt_is_Some_2 (x self) j) as [xj Ex]; [lia|].
  destruct (lookup_lt_is_Some_2 (y self) j) as [yj Ey]; [lia|].
  destruct (lookup_lt_is_Some_2 (z self) j) as [zj Ez]; [lia|].
  exists (<[j := ((xj + yj + zj) / of_Z 3)%num]> mean). split.
  - unfold mean_step, lift, read, assign, mbind, stateful_bind.
    rewrite (getitem_Some _ _ _ Ex), (getitem_Some _ _ _ Ey),
      (getitem_Some _ _ _ Ez). simpl.
    rewrite setitem_lt by lia. done.
  - split; [by rewrite length_insert|].
    intros i xi yi zi Hi Exi Eyi Ezi.
    destruct (decide (i = j)) as [->|Hne].
    + rewrite list_lookup_insert_eq by lia. congruence.
    + rewrite list_lookup_insert_ne by lia. apply Hmean; [lia|done..].
Qed.

Lemma get_mean_signal_by_length (self : Sensor F) :
  if decide (length (x self) ≤ length (y self)
             ∧ length (x self) ≤ length (z self))%nat
  then ∃ mean,
         get_mean_signal self = Ok mean ∧
         length mean = length (x self) ∧
         ∀ i xi yi zi,
           x self !! i = Some xi → y self !! i = Some yi →
           z self !! i = Some zi →
           mean !! i = Some ((xi + yi + zi) / of_Z 3)%num
  else get_mean_signal self = Raise IndexError.
Proof.
  case_decide as H.
  - destruct H as [Hy Hz]. unfold get_mean_signal.
    destruct (for_range_invariant (mean_invariant self) (mean_step self) 0
                (length (x self)) (np_zeros (length (x self))))
      as (m & -> & Hl & Hm); [lia| | |].
    + split; [apply length_np_zeros|]. intros; lia.
    + intros i t Hi Ht. apply mean_step_invariant_longer; [lia..|done].
    + exists m. split; [done|]. split; [done|].
      intros i xi yi zi Ex. apply Hm; [|done]. by eapply lookup_lt_Some.
  - unfold get_mean_signal.
    set (j := (length (y self) `min` length (z self))%nat).
    destruct (for_range_raise (λ _ mean, length mean = length (x self))
                (λ _, True) (mean_step self) IndexError 0 (length (x self)) j
                (np_zeros (length (x self)))) as (m & -> & _); [lia| | | |done].
    + apply length_np_zeros.
    + intros i t Hi Ht. apply mean_step_ok; [lia..|done].
    + intros t Ht. destruct (mean_step_short self j t) as [t' E]; [lia|lia|].
      eauto.
Qed.
(** X8. [get_mean_signal] needs y and z at least as long as x: then
    it returns the averages over the indices of x, ignoring what y and
    z hold beyond; otherwise it raises [IndexError]. *)
Theorem get_mean_signal_needs_long_axes (self : Sensor F) :
  if decide (length (x self) ≤ length (y self)
             ∧ length (x self) ≤ length (z self))%nat
  then ∃ mean,
         get_mean_signal self = Ok mean ∧
         length mean = length (x self) ∧
         ∀ i xi yi zi,
           x self !! i = Some xi → y self !! i = Some yi →
           z self !! i = Some zi →
           mean !! i = Some ((xi + yi + zi) / of_Z 3)%num
  else get_mean_signal self = Raise IndexError.
Proof. apply get_mean_signal_by_length. Qed.

End MeanEdges.

(** ** The centre of a label *)

Lemma argmin_from_first_minimum (rest : list Z) :
  ∀ (seen : list Z) (best_index : nat) (best : Z),
    seen !! best_index = Some best →
    (∀ j w, seen !! j = Some w → best ≤ w) →
    (∀ j w, (j < best_index)%nat → seen !! j = Some w → best < w) →
    first_minimum (seen ++ rest)
      (argmin_from best_index best (length seen) rest).
Proof.
  induction rest as [|v rest IH]; intros seen best_index b Eb Hle Hlt.
  - simpl. rewrite app_nil_r. by exists b.
  - simpl.
    assert (best_index < length seen)%nat by (by eapply lookup_lt_Some).
    replace (seen ++ v :: rest) with ((seen ++ [v]) ++ rest)
      by (by rewrite <- app_assoc).
    replace (Datatypes.S (length seen)) with (length (seen ++ [v]))
      by (rewrite length_app; simpl; lia).
    destruct (Z.ltb_spec v b) as [Hv|Hv]; apply IH.
    + by rewrite lookup_app_r, Nat.sub_diag by lia.
    + intros j w Ej. apply lookup_app_Some in Ej as [Ej|[Hj Ej]].
      * specialize (Hle j w Ej). lia.
      * destruct (j - length seen)%nat; simpl in Ej; [|done].
        injection Ej as <-. lia.
    + intros j w Hj Ej. rewrite lookup_app_l in Ej by done.
      specialize (Hle j w Ej). lia.
    + by rewrite lookup_app_l.
    + intros j w Ej. apply lookup_app_Some in Ej as [Ej|[Hj Ej]].
      * by apply (Hle j w).
      * destruct (j - length seen)%nat; simpl in Ej; [|done].
        injection Ej as <-. lia.
    + intros j w Hj Ej.
      rewrite lookup_app_l in Ej by lia. by apply (Hlt j w).
Qed.

Lemma argmin_is_first_minimum (a : list Z) :
  match argmin a with
  | Ok i => 0 ≤ i < Z.of_nat (length a) ∧ first_minimum a (Z.to_nat i)
  | Raise e => a = [] ∧ e = ValueError
  end.
Proof.
  destruct a as [|v a]; [done|]. unfold argmin. cbv beta iota.
  rewrite Nat2Z.id.
  assert (first_minimum (v :: a) (argmin_from 0 v 1 a)) as Hmin.
  { apply (argmin_from_first_minimum a [v] 0 v); [done| |intros; lia].
    intros [|j] w; simpl; [|done]. intros [= <-]. lia. }
  split; [|done].
  destruct Hmin as (b & Eb & _). apply lookup_lt_Some in Eb. lia.
Qed.

(** X9. [argmin] returns the first index of a least element, and
    raises [ValueError] on the empty sequence only. *)
Theorem argmin_first_minimum (a : list Z) :
  match argmin a with
  | Ok i => 0 ≤ i < Z.of_nat (length a) ∧ first_minimum a (Z.to_nat i)
  | Raise e => a = [] ∧ e = ValueError
  end.
Proof. apply argmin_is_first_minimum. Qed.

Section Nearest.
Context {F : Type}.

Lemma wrap64_small (v : Z) : - 2 ^ 63 ≤ v < 2 ^ 63 → wrap64 v = v.
Proof.
  intros H. unfold wrap64.
  rewrite Z.mod_small by lia. lia.
Qed.

(** X10. When no difference between a stamp and the label's stamp
    overflows [int64], the centre index of a label is the first index
    whose stamp is nearest to the label's; an empty recording raises
    [ValueError]. *)
Theorem center_is_nearest_timestamp (self : Sensor F) (label_timestamp : Z) :
  (∀ t, t ∈ timestamp self →
        - 2 ^ 63 < t - label_timestamp < 2 ^ 63) →
  match center_timestamp_index self label_timestamp with
  | Ok c =>
      0 ≤ c < Z.of_nat (length (timestamp self)) ∧
      ∃ tc, timestamp self !! Z.to_nat c = Some tc ∧
        (∀ j t, timestamp self !! j = Some t →
                Z.abs (tc - label_timestamp) ≤ Z.abs (t - label_timestamp)) ∧
        (∀ j t, (j < Z.to_nat c)%nat → timestamp self !! j = Some t →
                Z.abs (tc - label_timestamp) < Z.abs (t - label_timestamp))
  | Raise e => timestamp self = [] ∧ e = ValueError
  end.
Proof.
  intros Hfit. unfold center_timestamp_index.
  assert (np_abs <$> ((λ t, wrap64 (t - label_timestamp)) <$> timestamp self)
          = (λ t, Z.abs (t - label_timestamp)) <$> timestamp self) as ->.
  { rewrite <- list_fmap_compose. apply list_fmap_ext.
    intros i t Ht. apply list_elem_of_lookup_2 in Ht.
    specialize (Hfit t Ht). simpl. unfold np_abs.
    rewrite (wrap64_small (t - label_timestamp)) by lia.
    apply wrap64_small. lia. }
  pose proof (argmin_is_first_minimum
                ((λ t, Z.abs (t - label_timestamp)) <$> timestamp self)) as H.
  destruct (argmin _) as [c|e].
  - rewrite length_fmap in H. destruct H as [Hc (v & Ev & Hle & Hlt)].
    split; [done|].
    rewrite list_lookup_fmap in Ev.
    destruct (timestamp self !! Z.to_nat c) as [tc|] eqn:Etc; [|done].
    injection Ev as <-. exists tc. split; [done|]. split.
    + intros j t Et. apply (Hle j). by rewrite list_lookup_fmap, Et.
    + intros j t Hj Et. apply (Hlt j); [done|].
      by rewrite list_lookup_fmap, Et.
  - destruct H as [H ->]. split; [|done].
    by apply fmap_nil_inv in H.
Qed.
End Nearest.

Lemma center_is_nearest_timestamp_witness :
  match center_timestamp_index (recording 101) 100 with
  | Ok c =>
      0 ≤ c < Z.of_nat (length (timestamp (recording 101))) ∧
      ∃ tc, timestamp (recording 101) !! Z.to_nat c = Some tc ∧
        (∀ j t, timestamp (recording 101) !! j = Some t →
                Z.abs (tc - 100) ≤ Z.abs (t - 100)) ∧
        (∀ j t, (j < Z.to_nat c)%nat →
                timestamp (recording 101) !! j = Some t →
                Z.abs (tc - 100) < Z.abs (t - 100))
  | Raise e => timestamp (recording 101) = [] ∧ e = ValueError
  end.
Proof.
  apply (center_is_nearest_timestamp (recording 101) 100).
  intros t Ht.
  change (timestamp (recording 101))
    with ((λ i, 60 + i) <$> (Z.of_nat <$> seq 0 101)) in Ht.
  apply list_elem_of_fmap in Ht as (i & -> & Hi).
  apply list_elem_of_fmap in Hi as (k & -> & Hk).
  apply elem_of_seq in Hk. lia.
Defined.

(** ** Windows away from the start *)

Section Windows.
Context {A : Type}.

Lemma length_py_slice_le (data : list A) (start stop : Z) :
  start ≤ stop →
  (length (py_slice data start stop) ≤ Z.to_nat (stop - start))%nat.
Proof.
  intros Hle. unfold py_slice, slice_bound. rewrite length_take, length_drop.
  destruct (Z.ltb_spec start 0), (Z.ltb_spec stop 0); lia.
Qed.

(** X11. A window never holds more than [window_size] samples,
    wherever its centre is. *)
Theorem get_data_slice_at_most_window (data : list A) (center_index : Z)
    (window_size : Z) :
  0 ≤ window_size →
  (length (get_data_slice data center_index window_size)
   ≤ Z.to_nat window_size)%nat.
Proof.
  intros Hw. unfold get_data_slice. rewrite length_app.
  pose proof (length_py_slice_le data
                (center_index - window_size `div` 2) center_index
                ltac:(pose proof (Z.div_pos window_size 2); lia)).
  pose proof (length_py_slice_le data center_index
                (center_index + window_size `div` 2)
                ltac:(pose proof (Z.div_pos window_size 2); lia)).
  pose proof (Z.mul_div_le window_size 2 ltac:(lia)).
  lia.
Qed.

(** X12. For a centre index c with 50 <= c <= n the window is
    [data[c-50], ..., data[min(c+50, n) - 1]]: the 50 samples before the
    centre and up to 50 from it on, clipped at the end; it has the full
    100 samples exactly when c + 50 <= n. *)
Theorem get_data_slice_interior (data : list A) (c : Z) :
  50 ≤ c ≤ Z.of_nat (length data) →
  let n := Z.of_nat (length data) in
  get_data_slice data c default_window_size
  = take (Z.to_nat (50 + Z.min 50 (n - c))) (drop (Z.to_nat (c - 50)) data) ∧
  length (get_data_slice data c default_window_size)
  = Z.to_nat (50 + Z.min 50 (n - c)) ∧
  (length (get_data_slice data c default_window_size) = 100%nat
   ↔ c + 50 ≤ n) ∧
  ∀ j : nat,
    (j < Z.to_nat (50 + Z.min 50 (n - c)))%nat →
    get_data_slice data c default_window_size !! j
    = data !! (Z.to_nat (c - 50) + j)%nat.
Proof.
  intros Hc n.
  assert (get_data_slice data c default_window_size
          = take (Z.to_nat (50 + Z.min 50 (n - c)))
              (drop (Z.to_nat (c - 50)) data)) as E.
  { unfold get_data_slice, default_window_size.
    change (100 `div` 2) with 50.
    rewrite !py_slice_forward by lia. fold n.
    replace (Z.to_nat (Z.min c n - (c - 50))) with 50%nat by lia.
    replace (Z.to_nat (Z.min (c + 50) n - c))
      with (Z.to_nat (Z.min 50 (n - c))) by lia.
    replace (Z.to_nat c) with (Z.to_nat (c - 50) + 50)%nat at 1 by lia.
    rewrite <- drop_drop.
    replace (Z.to_nat (50 + Z.min 50 (n - c)))
      with (50 + Z.to_nat (Z.min 50 (n - c)))%nat by lia.
    set (d := drop (Z.to_nat (c - 50)) data).
    rewrite <- (take_drop 50 (take (50 + _) d)).
    rewrite take_take, Nat.min_l by lia.
    by rewrite take_drop_commute. }
  split; [done|]. rewrite E.
  assert (length (take (Z.to_nat (50 + Z.min 50 (n - c)))
                    (drop (Z.to_nat (c - 50)) data))
          = Z.to_nat (50 + Z.min 50 (n - c))) as El.
  { rewrite length_take, length_drop. lia. }
  split; [done|]. split; [rewrite El; lia|].
  intros j Hj. rewrite lookup_take_lt by lia. apply lookup_drop.
Qed.

End Windows.

Lemma get_data_slice_at_most_window_witness :
  (length (get_data_slice (ramp 120) 40 default_window_size)
   ≤ Z.to_nat default_window_size)%nat.
Proof.
  apply (get_data_slice_at_most_window (ramp 120) 40 default_window_size).
  unfold default_window_size. lia.
Defined.

Lemma get_data_slice_interior_witness :
  get_data_slice (ramp 120) 90 default_window_size
  = take (Z.to_nat (50 + Z.min 50 (120 - 90))) (drop (Z.to_nat (90 - 50)) (ramp 120)) ∧
  length (get_data_slice (ramp 120) 90 default_window_size)
  = Z.to_nat (50 + Z.min 50 (120 - 90)) ∧
  (length (get_data_slice (ramp 120) 90 default_window_size) = 100%nat
   ↔ 90 + 50 ≤ 120) ∧
  ∀ j : nat,
    (j < Z.to_nat (50 + Z.min 50 (120 - 90)))%nat →
    get_data_slice (ramp 120) 90 default_window_size !! j
    = ramp 120 !! (Z.to_nat (90 - 50) + j)%nat.
Proof.
  apply (get_data_slice_interior (ramp 120) 90). cbv. split; discriminate.
Defined.

(** ** The export of several labels *)

Section BlockExport.
Context {F : Type} {num : Number F} {lib : Library F}.


Lemma zip_with_snoc {A B C} (f : A → B → C) (l : list A) (a : A)
    (k : list B) (b : B) :
  k !! length l = Some b →
  zip_with f (l ++ [a]) k = zip_with f l k ++ [f a b].
Proof.
  revert k. induction l as [|a' l IH]; intros [|b' k] E; simpl in *;
    try done.
  - by injection E as ->.
  - f_equal. by apply IH.
Qed.

Lemma center_of_recording (self : Sensor F) (t : Z) :
  timestamp self ≠ [] → ∃ c, center_timestamp_index self t = Ok c.
Proof.
  intros H. unfold center_timestamp_index.
  destruct (timestamp self) as [|t0 ts]; [done|]. simpl. eauto.
Qed.

Lemma write_label_exported (self : Sensor F) label_timestamps labels j file :
  length (y self) = length (x self) →
  length (z self) = length (x self) →
  timestamp self ≠ [] →
  (j < length label_timestamps)%nat →
  (j < length labels)%nat →
  exported self label_timestamps labels j file →
  ∃ file', write_label self label_timestamps labels j file = (Ok (), file') ∧
           exported self label_timestamps labels (Datatypes.S j) file'.
Proof.
  intros Hy Hz Hts Hj Hl (centers & Hc & ->).
  destruct (lookup_lt_is_Some_2 label_timestamps j Hj) as [t Et].
  destruct (lookup_lt_is_Some_2 labels j Hl) as [label El].
  destruct (center_of_recording self t Hts) as [c Ec].
  eexists. split.
  - by apply (write_label_block self label_timestamps labels j t c label).
  - exists (centers ++ [c]). split.
    + rewrite (take_S_r _ _ _ Et). apply Forall2_app; [done|].
      by constructor.
    + assert (length centers = j) as Hlen.
      { apply Forall2_length in Hc. rewrite length_take in Hc. lia. }
      rewrite (zip_with_snoc _ _ _ _ label) by (by rewrite Hlen).
      rewrite concat_app. simpl. by rewrite app_nil_r.
Qed.

(** X13. On a non-empty recording with axes of equal length and at
    least as many labels as label stamps, the export ends normally and
    leaves one block per label stamp, in order: the block of the label
    around the centre index of its stamp.  Labels beyond the stamps are
    ignored. *)
Theorem label_segmentation_writes_a_block_per_label (self : Sensor F)
    (session_id : string) (label_timestamps : list Z)
    (labels : list string) :
  length (y self) = length (x self) →
  length (z self) = length (x self) →
  timestamp self ≠ [] →
  (length label_timestamps ≤ length labels)%nat →
  ∃ centers,
    Forall2 (λ t c, center_timestamp_index self t = Ok c)
      label_timestamps centers ∧
    label_segmentation self session_id label_timestamps labels
    = (Ok (), concat (zip_with (label_block self) centers labels)).
Proof.
  intros Hy Hz Hts Hlen. unfold label_segmentation.
  destruct (for_range_invariant (exported self label_timestamps labels)
              (write_label self label_timestamps labels) 0
              (length label_timestamps) [])
    as (file & E & centers & Hc & ->); [lia| | |].
  - exists []. split; [|done]. rewrite take_0. constructor.
  - intros j t Hj Ht. apply write_label_exported; [done..|lia|lia|done].
  - exists centers. rewrite take_ge in Hc by lia. done.
Qed.

(** X14. With fewer labels than label stamps the export raises
    [IndexError] at the first stamp without a label, after the complete
    blocks of the labels before it and without any part of a further
    block. *)
Theorem label_segmentation_stops_at_missing_label (self : Sensor F)
    (session_id : string) (label_timestamps : list Z)
    (labels : list string) :
  length (y self) = length (x self) →
  length (z self) = length (x self) →
  timestamp self ≠ [] →
  (length labels < length label_timestamps)%nat →
  ∃ centers,
    Forall2 (λ t c, center_timestamp_index self t = Ok c)
      (take (length labels) label_timestamps) centers ∧
    label_segmentation self session_id label_timestamps labels
    = (Raise IndexError, concat (zip_with (label_block self) centers labels)).
Proof.
  intros Hy Hz Hts Hlen. unfold label_segmentation.
  destruct (for_range_raise (exported self label_timestamps labels)
              (exported self label_timestamps labels (length labels))
              (write_label self label_timestamps labels) IndexError 0
              (length label_timestamps) (length labels) [])
    as (file & E & centers & Hc & ->); [lia| | | |].
  - exists []. split; [|done]. rewrite take_0. constructor.
  - intros j t Hj Ht. apply write_label_exported; [done..|lia|lia|done].
  - intros file Hfile. exists file. split; [|done].
    destruct (lookup_lt_is_Some_2 label_timestamps (length labels) Hlen)
      as [t Et].
    destruct (center_of_recording self t Hts) as [c Ec].
    unfold write_label, mbind, stateful_bind, lift.
    rewrite (getitem_Some _ _ _ Et), Ec.
    unfold getitem. by rewrite lookup_ge_None_2 by lia.
  - by exists centers.
Qed.

(** X15. On a recording without samples the export of any label
    raises [ValueError] and writes nothing. *)
Theorem label_segmentation_of_empty_recording (self : Sensor F)
    (session_id : string) (label_timestamps : list Z)
    (labels : list string) :
  timestamp self = [] →
  label_timestamps ≠ [] →
  label_segmentation self session_id label_timestamps labels
  = (Raise ValueError, []).
Proof.
  intros Hts Hne. unfold label_segmentation.
  destruct label_timestamps as [|t lts]; [done|].
  unfold for_range. simpl.
  unfold mbind at 1, stateful_bind at 1.
  unfold write_label, mbind, stateful_bind, lift. simpl.
  unfold center_timestamp_index. rewrite Hts. done.
Qed.

End BlockExport.

Lemma label_segmentation_writes_a_block_per_label_witness :
  ∃ centers,
    Forall2 (λ t c, center_timestamp_index (recording 101) t = Ok c)
      [100; 61] centers ∧
    label_segmentation (lib := stand_in) (recording 101) "session" [100; 61]
      ["tap"%string; "swipe"%string; "spare"%string]
    = (Ok (), concat (zip_with (label_block (lib := stand_in) (recording 101))
                        centers
                        ["tap"%string; "swipe"%string; "spare"%string])).
Proof.
  apply (label_segmentation_writes_a_block_per_label (lib := stand_in)
           (recording 101) "session" [100; 61]
           ["tap"%string; "swipe"%string; "spare"%string]);
    [reflexivity | reflexivity | discriminate | simpl; lia].
Defined.

Lemma label_segmentation_stops_at_missing_label_witness :
  ∃ centers,
    Forall2 (λ t c, center_timestamp_index (recording 101) t = Ok c)
      (take 1 [100; 61]) centers ∧
    label_segmentation (lib := stand_in) (recording 101) "session" [100; 61]
      ["tap"%string]
    = (Raise IndexError,
       concat (zip_with (label_block (lib := stand_in) (recording 101))
                 centers ["tap"%string])).
Proof.
  apply (label_segmentation_stops_at_missing_label (lib := stand_in)
           (recording 101) "session" [100; 61] ["tap"%string]);
    [reflexivity | reflexivity | discriminate | simpl; lia].
Defined.

Lemma label_segmentation_of_empty_recording_witness :
  label_segmentation (lib := stand_in) (recording 0) "session" [100]
    ["tap"%string]
  = (Raise ValueError, []).
Proof.
  apply (label_segmentation_of_empty_recording (lib := stand_in)
           (recording 0) "session" [100] ["tap"%string]);
    [reflexivity | discriminate].
Defined.

(** ** What the view is asked to draw *)

Section Frame.
Context {F : Type} {num : Number F} {lib : Library F}.

Lemma bind_ok_inv {S A B} (m : stateful S A) (k : A → stateful S B) s b s' :
  (m ≫= k) s = (Ok b, s') →
  ∃ a t, m s = (Ok a, t) ∧ k a t = (Ok b, s').
Proof.
  unfold mbind, stateful_bind.
  destruct (m s) as [[a|e] t]; [eauto|done].
Qed.

Lemma bind_inv {S A B} (m : stateful S A) (k : A → stateful S B) s o s' :
  (m ≫= k) s = (o, s') →
  (∃ a t, m s = (Ok a, t) ∧ k a t = (o, s')) ∨
  (∃ e, m s = (Raise e, s') ∧ o = Raise e).
Proof.
  unfold mbind, stateful_bind.
  destruct (m s) as [[a|e] t]; [eauto|].
  intros [= <- <-]. eauto.
Qed.

Lemma apply_median_filter_fixed w (self : Sensor F) outcome self' :
  apply_median_filter w self = (outcome, self') →
  fixed_part self' = fixed_part self.
Proof.
  unfold apply_median_filter, mbind, stateful_bind, read, lift, assign. simpl.
  destruct (mean_signal self).
  - destruct (medfilt _ _); intros [= <- <-]; done.
  - destruct (medfilt (x self) w); simpl; [|intros [= <- <-]; done].
    destruct (medfilt (y self) w); simpl; [|intros [= <- <-]; done].
    destruct (medfilt (z self) w); simpl; intros [= <- <-]; done.
Qed.

Lemma apply_filter_fixed f t (self : Sensor F) outcome self' :
  apply_filter f t self = (outcome, self') →
  fixed_part self' = fixed_part self.
Proof.
  unfold apply_filter, mbind, stateful_bind, read, lift, assign. simpl.
  destruct (mean_signal self).
  - destruct (apply_butter_filter _ _ _ _); intros [= <- <-]; done.
  - destruct (apply_butter_filter (x self) _ _ _); simpl;
      [|intros [= <- <-]; done].
    destruct (apply_butter_filter (y self) _ _ _); simpl;
      [|intros [= <- <-]; done].
    destruct (apply_butter_filter (z self) _ _ _); simpl;
      intros [= <- <-]; done.
Qed.

Lemma apply_kalman_filter_fixed (self : Sensor F) outcome self' :
  apply_kalman_filter self = (outcome, self') →
  fixed_part self' = fixed_part self.
Proof.
  unfold apply_kalman_filter, mbind, stateful_bind, read, lift, assign. simpl.
  destruct (mean_signal self).
  - destruct (get_kalman_filter_estimate _ _); intros [= <- <-]; done.
  - destruct (get_kalman_filter_estimate self (x self)); simpl;
      [|intros [= <- <-]; done].
    destruct (get_kalman_filter_estimate _ (y self)); simpl;
      [|intros [= <- <-]; done].
    destruct (get_kalman_filter_estimate _ (z self)); simpl;
      intros [= <- <-]; done.
Qed.

Lemma run_stage_fixed (s : stage F) (self : Sensor F) outcome self' :
  run_stage s self = (outcome, self') →
  fixed_part self' = fixed_part self.
Proof.
  destruct s as [| |w|rate type|]; simpl.
  - rewrite normalize_normalized. intros [= <- <-]. done.
  - unfold mbind, stateful_bind, read, lift, assign. simpl.
    destruct (get_mean_signal self); intros [= <- <-]; done.
  - apply apply_median_filter_fixed.
  - unfold mbind at 1, stateful_bind at 1, lift at 1.
    destruct (get_frequency rate); [|intros [= <- <-]; done].
    apply apply_filter_fixed.
  - apply apply_kalman_filter_fixed.
Qed.

(** A notification adds one request with the sensor's name before the
    title, when a view is attached, and changes nothing else. *)
Lemma plot_appends title (self : Sensor F) :
  ∃ self' call,
    plot title self = (Ok (), self') ∧
    call_title call = Some (name self +:+ " " +:+ title) ∧
    view self' = (λ calls, calls ++ [call]) <$> view self ∧
    name self' = name self ∧
    x self' = x self ∧ y self' = y self ∧ z self' = z self ∧
    mean_signal self' = mean_signal self.
Proof.
  unfold plot, mbind, stateful_bind, read, assign. simpl.
  destruct (view self) as [calls|] eqn:Ev.
  - destruct (mean_signal self) as [signal|] eqn:Em.
    + exists (set_view (Some (calls ++
                [plot_signal (name self +:+ " " +:+ title) (timestamp self)
                   signal])) self),
        (plot_signal (name self +:+ " " +:+ title) (timestamp self) signal).
      simpl. by rewrite Em.
    + exists (set_view (Some (calls ++
                [plot_sensor_data (name self +:+ " " +:+ title)
                   (timestamp self) (x self) (y self) (z self)])) self),
        (plot_sensor_data (name self +:+ " " +:+ title) (timestamp self)
           (x self) (y self) (z self)).
      simpl. by rewrite Em.
  - exists self, (plot_signal (name self +:+ " " +:+ title) [] []).
    rewrite Ev. done.
Qed.

Lemma run_stages_titles (stages : list (stage F)) :
  ∀ (self self' : Sensor F) calls,
    run_stages stages self = (Ok (), self') →
    view self = Some calls →
    ∃ new,
      view self' = Some (calls ++ new) ∧
      name self' = name self ∧
      Forall2 (λ c t, call_title c = Some (name self +:+ " " +:+ t))
        new (omap stage_title stages).
Proof.
  induction stages as [|s stages IH]; intros self self' calls E Ev.
  - injection E as <-. exists []. rewrite app_nil_r. by repeat split.
  - rewrite run_stages_cons in E.
    apply bind_ok_inv in E as ([] & s1 & E1 & E).
    apply bind_ok_inv in E as ([] & s2 & E2 & E).
    apply run_stage_fixed in E1. injection E1 as _ En1 Ev1 _ _ _ _ _.
    assert (∃ new1,
              view s2 = Some (calls ++ new1) ∧ name s2 = name self ∧
              Forall2 (λ c t, call_title c = Some (name self +:+ " " +:+ t))
                new1 (from_option (λ t, [t]) [] (stage_title s)))
      as (new1 & Ev2 & En2 & Ht).
    { destruct (stage_title s) as [title|] eqn:Et.
      - assert (notify s = plot title) as Hn.
        { destruct s; simpl in *; congruence. }
        rewrite Hn in E2.
        destruct (plot_appends title s1) as (s2' & call & Ep & Hc & Hv & Hn2 & _).
        rewrite Ep in E2. injection E2 as <-.
        exists [call]. rewrite Hv, Ev1, Ev, Hn2, En1. simpl.
        split; [done|]. split; [done|].
        constructor; [|constructor]. by rewrite Hc, En1.
      - assert (notify s = mret ()) as Hn.
        { destruct s; simpl in *; congruence. }
        rewrite Hn in E2. injection E2 as <-.
        exists []. rewrite app_nil_r, Ev1, Ev, En1. by repeat split. }
    destruct (IH s2 self' (calls ++ new1) E Ev2) as (new & Ev' & En' & Ht').
    exists (new1 ++ new). rewrite Ev', En', En2, <- app_assoc.
    split; [done|]. split; [done|].
    rewrite En2 in Ht'.
    simpl omap. destruct (stage_title s) as [title|]; simpl in Ht.
    + exact (Forall2_app Ht Ht').
    + exact (Forall2_app Ht Ht').
Qed.

(** X16. A call that ends normally on a sensor with a view adds to
    the requests of the view one drawing per notified stage, titled
    with the sensor's name and [raw], [normalize], then
    [median filter], [<type> filter] when these stages run, and
    [kalman filter], in this order, and a final request to show. *)
Theorem process_notifies_each_stage (merge_axis : bool)
    (self self' : Sensor F) (calls : list (view_call F)) :
  view self = Some calls →
  process merge_axis self = (Ok (), self') →
  ∃ new,
    view self' = Some (calls ++ new ++ [show]) ∧
    Forall2 (λ c t, call_title c = Some (name self +:+ " " +:+ t))
      new ("raw"%string :: omap stage_title (pipeline merge_axis self)).
Proof.
  intros Ev E. rewrite process_runs_the_pipeline in E.
  apply bind_ok_inv in E as ([] & s1 & E1 & E).
  apply bind_ok_inv in E as ([] & s2 & E2 & E).
  destruct (plot_appends "raw" self) as (s1' & call & Ep & Hc & Hv & Hn & _).
  rewrite Ep in E1. injection E1 as <-.
  rewrite Ev in Hv. simpl in Hv.
  destruct (run_stages_titles _ _ _ _ E2 Hv) as (new & Ev2 & En2 & Ht).
  unfold view_show, mbind, stateful_bind, read, assign in E. simpl in E.
  rewrite Ev2 in E. injection E as <-. simpl.
  exists (call :: new). split.
  - by rewrite <- !app_assoc.
  - constructor; [done|]. by rewrite Hn in Ht.
Qed.

End Frame.

Lemma process_notifies_each_stage_witness :
  ∃ new,
    view (snd (process (lib := stand_in) true (viewed 3)))
    = Some ([] ++ new ++ [show]) ∧
    Forall2 (λ c t, call_title c = Some (name (viewed 3) +:+ " " +:+ t))
      new ("raw"%string :: omap stage_title (pipeline true (viewed 3))).
Proof.
  apply (process_notifies_each_stage (lib := stand_in) true (viewed 3)
           (snd (process (lib := stand_in) true (viewed 3))) []);
    [reflexivity | vm_compute; reflexivity].
Defined.

(** ** What a call of [process] computes *)

Section Compose.
Context {F : Type} {num : Number F} {lib : Library F}.

Lemma get_mean_signal_signals (self other : Sensor F) :
  x other = x self → y other = y self → z other = z self →
  get_mean_signal other = get_mean_signal self.
Proof.
  intros Ex Ey Ez. unfold get_mean_signal. rewrite Ex.
  unfold for_range.
  rewrite (for_range_from_ext (mean_step other) (mean_step self)); [done|].
  intros i t. unfold mean_step. by rewrite Ex, Ey, Ez.
Qed.

Lemma run_merger (self : Sensor F) (m : list F) :
  get_mean_signal self = Ok m →
  run_stage Merger self = (Ok (), set_mean_signal (Some m) self).
Proof.
  intros E. simpl. unfold mbind, stateful_bind, read, lift, assign. simpl.
  by rewrite E.
Qed.

Lemma run_kalman_merged (self : Sensor F) (signal estimate : list F) :
  mean_signal self = Some signal →
  get_kalman_filter_estimate self signal = Ok estimate →
  run_stage KalmanEstimator self
  = (Ok (), set_mean_signal (Some estimate) self).
Proof.
  intros Em Ee.
  pose proof (run_filter_on_mean_signal KalmanFilter self signal Em) as E.
  simpl in E. rewrite Ee in E. exact E.
Qed.

Lemma run_normalizer (self : Sensor F) :
  run_stage Normalizer self = (Ok (), normalized self).
Proof. apply normalize_normalized. Qed.

Lemma run_stages_step (s : stage F) stages (self s1 s2 : Sensor F) o self' :
  run_stage s self = (Ok (), s1) →
  notify s s1 = (Ok (), s2) →
  run_stages stages s2 = (o, self') →
  run_stages (s :: stages) self = (o, self').
Proof.
  intros E1 E2 E. rewrite run_stages_cons.
  rewrite (bind_ok _ _ _ _ _ E1), (bind_ok _ _ _ _ _ E2). done.
Qed.

Lemma run_stages_stop (s : stage F) stages (self : Sensor F) e self' :
  run_stage s self = (Raise e, self') →
  run_stages (s :: stages) self = (Raise e, self').
Proof.
  intros E1. rewrite run_stages_cons. by rewrite (bind_raise _ _ _ _ _ E1).
Qed.

Lemma run_between stages (self s1 s2 self' : Sensor F) :
  plot "raw" self = (Ok (), s1) →
  run_stages stages s1 = (Ok (), s2) →
  view_show s2 = (Ok (), self') →
  (plot "raw";; run_stages stages;; view_show) self = (Ok (), self').
Proof.
  intros E1 E2 E3.
  rewrite (bind_ok _ _ _ _ _ E1), (bind_ok _ _ _ _ _ E2). done.
Qed.

Lemma run_until stages (self s1 self' : Sensor F) e :
  plot "raw" self = (Ok (), s1) →
  run_stages stages s1 = (Raise e, self') →
  (plot "raw";; run_stages stages;; view_show) self = (Raise e, self').
Proof.
  intros E1 E2.
  rewrite (bind_ok _ _ _ _ _ E1), (bind_raise _ _ _ _ _ E2). done.
Qed.

(** X18. With the merge on and the median and band filters off, a
    call on non-empty axes of equal length with both variances set ends
    normally, leaves each axis centred on its mean, and leaves in
    [mean_signal] the Kalman estimate of the average of the centred
    axes. *)
Theorem process_merged_is_kalman_of_average (self : Sensor F) (q r : F) :
  median_filter_window_size self = None →
  sampling_rate self = None ∨ filter_type self = None →
  length (y self) = length (x self) →
  length (z self) = length (x self) →
  x self ≠ [] →
  process_variance_q self = Some q →
  measurement_variance_estimate self = Some r →
  ∃ self' average estimate,
    process true self = (Ok (), self') ∧
    get_mean_signal (normalized self) = Ok average ∧
    get_kalman_filter_estimate self average = Ok estimate ∧
    mean_signal self' = Some estimate ∧
    x self' = centered (x self) ∧
    y self' = centered (y self) ∧
    z self' = centered (z self) ∧
    timestamp self' = timestamp self.
Proof.
  intros Hw Hband Hy Hz Hx Hq Hr.
  assert (pipeline true self = [Normalizer; Merger; KalmanEstimator]) as Hp.
  { unfold pipeline. rewrite Hw.
    destruct Hband as [-> | ->]; [done|].
    by destruct (sampling_rate self). }
  destruct (get_mean_signal_invariant (normalized self)) as (avg & Ea & Hl & _).
  { simpl. unfold centered. by rewrite !length_fmap. }
  { simpl. unfold centered. by rewrite !length_fmap. }
  assert (avg ≠ []) as Havg.
  { simpl in Hl. unfold centered in Hl. rewrite length_fmap in Hl.
    destruct avg; [|done]. destruct (x self); [done|]. done. }
  destruct (get_kalman_filter_estimate_returns self avg q r Havg Hq Hr)
    as [est Ee].
  destruct (plot_view_only "raw" self) as [v1 E1].
  set (s1 := set_view v1 self) in *.
  destruct (plot_view_only "normalize" (normalized s1)) as [v2 E2].
  set (s3 := set_view v2 (normalized s1)) in *.
  set (s4 := set_mean_signal (Some avg) s3).
  set (s5 := set_mean_signal (Some est) s4).
  destruct (plot_view_only "kalman filter" s5) as [v4 E4].
  destruct (view_show_view_only (set_view v4 s5)) as [v5 E5].
  exists (set_view v5 (set_view v4 s5)), avg, est.
  split; [|done].
  rewrite process_runs_the_pipeline, Hp.
  eapply run_between; [exact E1| |exact E5].
  eapply run_stages_step; [apply run_normalizer|exact E2|].
  eapply (run_stages_step Merger _ s3 s4 s4).
  { apply run_merger. rewrite <- Ea. by apply get_mean_signal_signals. }
  { done. }
  eapply run_stages_step; [|exact E4|done].
  apply (run_kalman_merged s4 avg); [done|].
  rewrite <- Ee. by apply get_kalman_filter_estimate_parameters.
Qed.

Lemma run_kalman_per_axis (self : Sensor F) (ex ey ez : list F) :
  mean_signal self = None →
  get_kalman_filter_estimate self (x self) = Ok ex →
  get_kalman_filter_estimate self (y self) = Ok ey →
  get_kalman_filter_estimate self (z self) = Ok ez →
  run_stage KalmanEstimator self
  = (Ok (), set_z ez (set_y ey (set_x ex self))).
Proof.
  intros Em Ex Ey Ez. simpl.
  unfold apply_kalman_filter, mbind, stateful_bind, read, lift, assign.
  rewrite Em. simpl. rewrite Ex. simpl.
  rewrite (get_kalman_filter_estimate_parameters self) by done.
  rewrite Ey. simpl.
  rewrite (get_kalman_filter_estimate_parameters self) by done.
  rewrite Ez. done.
Qed.

Lemma run_kalman_first_axis_raises (self : Sensor F) e :
  mean_signal self = None →
  get_kalman_filter_estimate self (x self) = Raise e →
  run_stage KalmanEstimator self = (Raise e, self).
Proof.
  intros Em Ex. simpl.
  unfold apply_kalman_filter, mbind, stateful_bind, read, lift, assign.
  rewrite Em. simpl. by rewrite Ex.
Qed.

(** X19. With every optional stage off, a call on a sensor without a
    merged signal, with non-empty axes and both variances set, ends
    normally and leaves each axis equal to the Kalman estimate of that
    axis centred on its mean, of unchanged length. *)
Theorem process_per_axis_is_kalman_of_centred (self : Sensor F) (q r : F) :
  median_filter_window_size self = None →
  sampling_rate self = None ∨ filter_type self = None →
  mean_signal self = None →
  x self ≠ [] → y self ≠ [] → z self ≠ [] →
  process_variance_q self = Some q →
  measurement_variance_estimate self = Some r →
  ∃ self' ex ey ez,
    process false self = (Ok (), self') ∧
    get_kalman_filter_estimate self (centered (x self)) = Ok ex ∧
    get_kalman_filter_estimate self (centered (y self)) = Ok ey ∧
    get_kalman_filter_estimate self (centered (z self)) = Ok ez ∧
    x self' = ex ∧ y self' = ey ∧ z self' = ez ∧
    mean_signal self' = None ∧
    length ex = length (x self) ∧ length ey = length (y self) ∧
    length ez = length (z self) ∧
    timestamp self' = timestamp self.
Proof.
  intros Hw Hband Hm Hx Hy Hz Hq Hr.
  assert (pipeline false self = [Normalizer; KalmanEstimator]) as Hp.
  { unfold pipeline. rewrite Hw.
    destruct Hband as [-> | ->]; [done|].
    by destruct (sampling_rate self). }
  assert (∀ a, a ≠ [] →
            ∃ est, get_kalman_filter_estimate self (centered a) = Ok est
                   ∧ length est = length a) as Hest.
  { intros a Ha.
    destruct (kalman_run_recursion self (centered a) q r)
      as (k & Ek & (L1 & _) & _); [by apply centered_nonempty|done|done|].
    exists (a_posteriori_estimate k).
    unfold get_kalman_filter_estimate. rewrite Ek. split; [done|].
    rewrite L1. unfold centered. by rewrite length_fmap. }
  destruct (Hest (x self) Hx) as (ex & Ex & Lx).
  destruct (Hest (y self) Hy) as (ey & Ey & Ly).
  destruct (Hest (z self) Hz) as (ez & Ez & Lz).
  destruct (plot_view_only "raw" self) as [v1 E1].
  set (s1 := set_view v1 self) in *.
  destruct (plot_view_only "normalize" (normalized s1)) as [v2 E2].
  set (s3 := set_view v2 (normalized s1)) in *.
  set (s5 := set_z ez (set_y ey (set_x ex s3))).
  destruct (plot_view_only "kalman filter" s5) as [v4 E4].
  destruct (view_show_view_only (set_view v4 s5)) as [v5 E5].
  exists (set_view v5 (set_view v4 s5)), ex, ey, ez.
  split; [|done].
  rewrite process_runs_the_pipeline, Hp.
  eapply run_between; [exact E1| |exact E5].
  eapply run_stages_step; [apply run_normalizer|exact E2|].
  eapply run_stages_step; [|exact E4|done].
  apply run_kalman_per_axis; [done|..];
    (etrans; [by apply get_kalman_filter_estimate_parameters|done]).
Qed.

(** X20. A sensor that already carries a merged signal keeps it
    through normalisation: a call without the merge centres the axes
    but filters the merged signal as it stood, not the centred axes. *)
Theorem process_keeps_stale_mean_signal (self : Sensor F)
    (signal : list F) (q r : F) :
  median_filter_window_size self = None →
  sampling_rate self = None ∨ filter_type self = None →
  mean_signal self = Some signal →
  signal ≠ [] →
  process_variance_q self = Some q →
  measurement_variance_estimate self = Some r →
  ∃ self' estimate,
    process false self = (Ok (), self') ∧
    get_kalman_filter_estimate self signal = Ok estimate ∧
    mean_signal self' = Some estimate ∧
    x self' = centered (x self) ∧
    y self' = centered (y self) ∧
    z self' = centered (z self).
Proof.
  intros Hw Hband Hm Hs Hq Hr.
  assert (pipeline false self = [Normalizer; KalmanEstimator]) as Hp.
  { unfold pipeline. rewrite Hw.
    destruct Hband as [-> | ->]; [done|].
    by destruct (sampling_rate self). }
  destruct (get_kalman_filter_estimate_returns self signal q r Hs Hq Hr)
    as [est Ee].
  destruct (plot_view_only "raw" self) as [v1 E1].
  set (s1 := set_view v1 self) in *.
  destruct (plot_view_only "normalize" (normalized s1)) as [v2 E2].
  set (s3 := set_view v2 (normalized s1)) in *.
  set (s5 := set_mean_signal (Some est) s3).
  destruct (plot_view_only "kalman filter" s5) as [v4 E4].
  destruct (view_show_view_only (set_view v4 s5)) as [v5 E5].
  exists (set_view v5 (set_view v4 s5)), est.
  split; [|done].
  rewrite process_runs_the_pipeline, Hp.
  eapply run_between; [exact E1| |exact E5].
  eapply run_stages_step; [apply run_normalizer|exact E2|].
  eapply run_stages_step; [|exact E4|done].
  apply (run_kalman_merged s3 signal); [done|].
  rewrite <- Ee. by apply get_kalman_filter_estimate_parameters.
Qed.

Lemma process_stops_without_variances (self : Sensor F) :
  median_filter_window_size self = None →
  sampling_rate self = None ∨ filter_type self = None →
  mean_signal self = None →
  (2 ≤ length (x self))%nat →
  process_variance_q self = None ∨ measurement_variance_estimate self = None →
  ∃ self',
    process false self = (Raise TypeError, self') ∧
    x self' = centered (x self) ∧
    y self' = centered (y self) ∧
    z self' = centered (z self).
Proof.
  intros Hw Hband Hm Hx Hv.
  assert (pipeline false self = [Normalizer; KalmanEstimator]) as Hp.
  { unfold pipeline. rewrite Hw.
    destruct Hband as [-> | ->]; [done|].
    by destruct (sampling_rate self). }
  destruct (plot_view_only "raw" self) as [v1 E1].
  set (s1 := set_view v1 self) in *.
  destruct (plot_view_only "normalize" (normalized s1)) as [v2 E2].
  set (s3 := set_view v2 (normalized s1)) in *.
  exists s3. split; [|done].
  rewrite process_runs_the_pipeline, Hp.
  eapply run_until; [exact E1|].
  eapply run_stages_step; [apply run_normalizer|exact E2|].
  apply run_stages_stop. apply run_kalman_first_axis_raises; [done|].
  apply kalman_raises_without_variance; [done|].
  simpl. unfold centered. by rewrite length_fmap.
Qed.

(** X21. Without both variances, a call with every optional stage off
    on a sensor of two samples or more stops in the Kalman stage with a
    [TypeError], and leaves the axes centred: the failed call has
    already changed the sensor. *)
Theorem process_without_variances_raises (self : Sensor F) :
  median_filter_window_size self = None →
  sampling_rate self = None ∨ filter_type self = None →
  mean_signal self = None →
  (2 ≤ length (x self))%nat →
  process_variance_q self = None ∨ measurement_variance_estimate self = None →
  ∃ self',
    process false self = (Raise TypeError, self') ∧
    x self' = centered (x self) ∧
    y self' = centered (y self) ∧
    z self' = centered (z self).
Proof. apply process_stops_without_variances. Qed.

(** X25. A sensor as [__init__] leaves it, with two samples or more,
    cannot be processed before its variances are assigned: the call
    raises [TypeError] in the Kalman stage. *)
Theorem fresh_sensor_needs_variances (stamps : list Z) (xs ys zs : list F)
    (file_path : string) (drawn : option (list (view_call F))) :
  (2 ≤ length xs)%nat →
  ∃ self',
    process false (init stamps xs ys zs file_path drawn)
    = (Raise TypeError, self') ∧
    x self' = centered xs ∧
    y self' = centered ys ∧
    z self' = centered zs.
Proof.
  intros Hx.
  apply (process_stops_without_variances
           (init stamps xs ys zs file_path drawn)); try done; by left.
Qed.

End Compose.

Lemma process_merged_is_kalman_of_average_witness :
  ∃ self' average estimate,
    process (lib := stand_in) true (recording 3) = (Ok (), self') ∧
    get_mean_signal (normalized (recording 3)) = Ok average ∧
    get_kalman_filter_estimate (recording 3) average = Ok estimate ∧
    mean_signal self' = Some estimate ∧
    x self' = centered (x (recording 3)) ∧
    y self' = centered (y (recording 3)) ∧
    z self' = centered (z (recording 3)) ∧
    timestamp self' = timestamp (recording 3).
Proof.
  apply (process_merged_is_kalman_of_average (lib := stand_in) (recording 3)
           0.5%float 1%float);
    first [ reflexivity | discriminate | by left ].
Defined.

Lemma process_per_axis_is_kalman_of_centred_witness :
  ∃ self' ex ey ez,
    process (lib := stand_in) false (recording 3) = (Ok (), self') ∧
    get_kalman_filter_estimate (recording 3) (centered (x (recording 3)))
    = Ok ex ∧
    get_kalman_filter_estimate (recording 3) (centered (y (recording 3)))
    = Ok ey ∧
    get_kalman_filter_estimate (recording 3) (centered (z (recording 3)))
    = Ok ez ∧
    x self' = ex ∧ y self' = ey ∧ z self' = ez ∧
    mean_signal self' = None ∧
    length ex = length (x (recording 3)) ∧
    length ey = length (y (recording 3)) ∧
    length ez = length (z (recording 3)) ∧
    timestamp self' = timestamp (recording 3).
Proof.
  apply (process_per_axis_is_kalman_of_centred (lib := stand_in)
           (recording 3) 0.5%float 1%float);
    first [ reflexivity | discriminate | by left ].
Defined.

Lemma process_keeps_stale_mean_signal_witness :
  ∃ self' estimate,
    process (lib := stand_in) false
      (merged [1; 2]%float [3]%float [4]%float [5]%float) = (Ok (), self') ∧
    get_kalman_filter_estimate
      (merged [1; 2]%float [3]%float [4]%float [5]%float) [1; 2]%float
    = Ok estimate ∧
    mean_signal self' = Some estimate ∧
    x self' = centered [3]%float ∧
    y self' = centered [4]%float ∧
    z self' = centered [5]%float.
Proof.
  apply (process_keeps_stale_mean_signal (lib := stand_in)
           (merged [1; 2]%float [3]%float [4]%float [5]%float)
           [1; 2]%float 0.5%float 1%float);
    first [ reflexivity | discriminate | by left ].
Defined.

Lemma process_without_variances_raises_witness :
  ∃ self',
    process (lib := stand_in) false
      (at_rest [1; 2]%float [3; 4]%float [5; 6]%float None None)
    = (Raise TypeError, self') ∧
    x self' = centered [1; 2]%float ∧
    y self' = centered [3; 4]%float ∧
    z self' = centered [5; 6]%float.
Proof.
  apply (process_without_variances_raises (lib := stand_in)
           (at_rest [1; 2]%float [3; 4]%float [5; 6]%float None None));
    first [ reflexivity | by left | simpl; lia ].
Defined.

Lemma fresh_sensor_needs_variances_witness :
  ∃ self',
    process (lib := stand_in) false
      (init [1; 2] [1; 2]%float [3; 4]%float [5; 6]%float
         "data/1_accelerometer.csv" None)
    = (Raise TypeError, self') ∧
    x self' = centered [1; 2]%float ∧
    y self' = centered [3; 4]%float ∧
    z self' = centered [5; 6]%float.
Proof.
  apply (fresh_sensor_needs_variances (lib := stand_in) [1; 2]
           [1; 2]%float [3; 4]%float [5; 6]%float
           "data/1_accelerometer.csv" None).
  simpl. lia.
Defined.


(** ** The automatic segmentation *)

Section SegmentationFacts.
Context {F : Type} {num : Number F} {lib : Library F} {peaks : PeakAnalysis F}.

(** X22. [automatic_segmentation] merges before it segments: when y
    and z are at least as long as x it stores the average in
    [mean_signal] and ends as [segment] does on it, so the merged
    signal stays even when [segment] raises; otherwise it raises
    [IndexError] and leaves the sensor as it was. *)
Theorem automatic_segmentation_merges_first (self : Sensor F) :
  if decide (length (x self) ≤ length (y self)
             ∧ length (x self) ≤ length (z self))%nat
  then ∃ mean,
         get_mean_signal self = Ok mean ∧
         automatic_segmentation self
         = (segment mean true, set_mean_signal (Some mean) self)
  else automatic_segmentation self = (Raise IndexError, self).
Proof.
  pose proof (get_mean_signal_by_length self) as H.
  case_decide.
  - destruct H as (m & E & _). exists m. split; [done|].
    unfold automatic_segmentation, mbind, stateful_bind, read, lift, assign.
    simpl. by rewrite E.
  - unfold automatic_segmentation, mbind, stateful_bind, read, lift, assign.
    simpl. by rewrite H.
Qed.

End SegmentationFacts.

(** ** What a call of [process] leaves alone *)

Section Untouched.
Context {F : Type} {num : Number F} {lib : Library F}.



Lemma kept_trans (s1 s2 s3 : Sensor F) : kept s1 s2 → kept s2 s3 → kept s1 s3.
Proof. intros [E1 V1] [E2 V2]. split; [congruence|auto]. Qed.

Lemma plot_kept title (self : Sensor F) outcome self' :
  plot title self = (outcome, self') → kept self self'.
Proof.
  unfold plot, mbind, stateful_bind, read, assign. simpl.
  destruct (view self) eqn:Ev; [destruct (mean_signal self)|];
    intros [= <- <-]; (split; [done|]); by rewrite ?Ev.
Qed.

Lemma view_show_kept (self : Sensor F) outcome self' :
  view_show self = (outcome, self') → kept self self'.
Proof.
  unfold view_show, mbind, stateful_bind, read, assign. simpl.
  destruct (view self) eqn:Ev; intros [= <- <-];
    (split; [done|]); by rewrite ?Ev.
Qed.

Lemma run_stage_kept (s : stage F) (self : Sensor F) outcome self' :
  run_stage s self = (outcome, self') → kept self self'.
Proof.
  intros E. apply run_stage_fixed in E.
  injection E as E1 E2 E3 E4 E5 E6 E7 E8.
  split; [unfold settings; congruence|congruence].
Qed.

Lemma notify_kept (s : stage F) (self : Sensor F) outcome self' :
  notify s self = (outcome, self') → kept self self'.
Proof.
  destruct s; simpl; try apply plot_kept. intros [= <- <-]. done.
Qed.

Lemma run_stages_kept (stages : list (stage F)) :
  ∀ (self : Sensor F) outcome self',
    run_stages stages self = (outcome, self') → kept self self'.
Proof.
  induction stages as [|s stages IH]; intros self o self' E.
  - injection E as <- <-. done.
  - rewrite run_stages_cons in E.
    apply bind_inv in E as [([] & s1 & E1 & E)|(e & E1 & ->)];
      [|by eapply run_stage_kept].
    apply run_stage_kept in E1.
    apply bind_inv in E as [([] & s2 & E2 & E)|(e & E2 & ->)];
      [|eapply kept_trans; [done|by eapply notify_kept]].
    apply notify_kept in E2. apply IH in E.
    eauto using kept_trans.
Qed.

(** X17. However a call of [process] ends, it leaves the stamps, the
    name, the three configuration fields and the two variances as they
    were, and it attaches no view to a sensor that has none. *)
Theorem process_keeps_settings (merge_axis : bool) (self : Sensor F)
    (outcome : result unit) (self' : Sensor F) :
  process merge_axis self = (outcome, self') →
  timestamp self' = timestamp self ∧
  name self' = name self ∧
  median_filter_window_size self' = median_filter_window_size self ∧
  sampling_rate self' = sampling_rate self ∧
  filter_type self' = filter_type self ∧
  process_variance_q self' = process_variance_q self ∧
  measurement_variance_estimate self' = measurement_variance_estimate self ∧
  (view self = None → view self' = None).
Proof.
  intros E. rewrite process_runs_the_pipeline in E.
  assert (kept self self') as [Hs Hv].
  { apply bind_inv in E as [([] & s1 & E1 & E)|(e & E1 & ->)];
      [|by eapply plot_kept].
    apply plot_kept in E1.
    apply bind_inv in E as [([] & s2 & E2 & E)|(e & E2 & ->)];
      [|eapply kept_trans; [done|by eapply run_stages_kept]].
    apply run_stages_kept in E2. apply view_show_kept in E.
    eauto using kept_trans. }
  injection Hs as -> -> -> -> -> -> ->. done.
Qed.

End Untouched.

Lemma process_keeps_settings_witness :
  timestamp (snd (process (lib := stand_in) false (recording 1)))
  = timestamp (recording 1) ∧
  name (snd (process (lib := stand_in) false (recording 1)))
  = name (recording 1) ∧
  median_filter_window_size (snd (process (lib := stand_in) false (recording 1)))
  = median_filter_window_size (recording 1) ∧
  sampling_rate (snd (process (lib := stand_in) false (recording 1)))
  = sampling_rate (recording 1) ∧
  filter_type (snd (process (lib := stand_in) false (recording 1)))
  = filter_type (recording 1) ∧
  process_variance_q (snd (process (lib := stand_in) false (recording 1)))
  = process_variance_q (recording 1) ∧
  measurement_variance_estimate
    (snd (process (lib := stand_in) false (recording 1)))
  = measurement_variance_estimate (recording 1) ∧
  (view (recording 1) = None →
   view (snd (process (lib := stand_in) false (recording 1))) = None).
Proof.
  apply (process_keeps_settings (lib := stand_in) false (recording 1)
           (fst (process (lib := stand_in) false (recording 1)))).
  by destruct (process (lib := stand_in) false (recording 1)).
Defined.

(** ** The name of a sensor *)

Lemma find_from_absent c s : ∀ i, c ∉ s → find_from c s i = -1.
Proof.
  induction s as [|a s IH]; intros i H; simpl; [done|].
  apply not_elem_of_cons in H as [Hne H].
  rewrite decide_False by done. by apply IH.
Qed.

Lemma find_from_first c a r : ∀ i,
  c ∉ a → find_from c (a ++ c :: r) i = i + Z.of_nat (length a).
Proof.
  induction a as [|b a IH]; intros i H; simpl.
  - rewrite decide_True by done. lia.
  - apply not_elem_of_cons in H as [Hne H].
    rewrite decide_False by done. rewrite IH by done. lia.
Qed.

Lemma rfind_from_absent c s : ∀ i last, c ∉ s → rfind_from c s i last = last.
Proof.
  induction s as [|a s IH]; intros i last H; simpl; [done|].
  apply not_elem_of_cons in H as [Hne H].
  rewrite decide_False by done. by apply IH.
Qed.

Lemma rfind_from_last c pre r : ∀ i last,
  c ∉ r → rfind_from c (pre ++ c :: r) i last = i + Z.of_nat (length pre).
Proof.
  induction pre as [|b pre IH]; intros i last H; simpl.
  - rewrite decide_True by done. rewrite rfind_from_absent by done. lia.
  - rewrite IH by done. lia.
Qed.

Lemma py_slice_to_end {A} (p : list A) (i : Z) :
  0 ≤ i ≤ Z.of_nat (length p) →
  py_slice p i (Z.of_nat (length p)) = drop (Z.to_nat i) p.
Proof.
  intros Hi. rewrite py_slice_forward by done.
  apply take_ge. rewrite length_drop. lia.
Qed.

Lemma basename_of_path (dir file_name : list ascii) :
  "/"%char ∉ file_name →
  basename (dir ++ "/"%char :: file_name) = file_name ∧
  basename file_name = file_name.
Proof.
  intros H. unfold basename, rfind. split.
  - rewrite rfind_from_last by done.
    rewrite py_slice_to_end by (rewrite length_app; simpl; lia).
    replace (Z.to_nat (0 + Z.of_nat (length dir) + 1))
      with (length (dir ++ ["/"%char])) by (rewrite length_app; simpl; lia).
    replace (dir ++ "/"%char :: file_name)
      with ((dir ++ ["/"%char]) ++ file_name) by (by rewrite <- app_assoc).
    by rewrite drop_app_length.
  - rewrite rfind_from_absent by done.
    by rewrite py_slice_to_end by lia.
Qed.

(** X23. For a file [<kind>_<name>.<ext>], in a directory or not,
    where [kind] holds neither an underscore nor a dot and [name] holds
    no dot, the sensor's name is [name]. *)
Theorem sensor_name_of_path (dir kind name ext : list ascii) :
  "/"%char ∉ kind → "/"%char ∉ name → "/"%char ∉ ext →
  "_"%char ∉ kind → "."%char ∉ kind → "."%char ∉ name →
  let file_name := kind ++ "_"%char :: name ++ "."%char :: ext in
  sensor_name (string_of_list_ascii (dir ++ "/"%char :: file_name))
  = string_of_list_ascii name ∧
  sensor_name (string_of_list_ascii file_name) = string_of_list_ascii name.
Proof.
  intros Hk Hn He Hu Hd Hdn file_name.
  assert ("/"%char ∉ file_name) as Hslash.
  { unfold file_name. rewrite elem_of_app, !elem_of_cons, elem_of_app,
      elem_of_cons. intros [?|[?|[?|[?|?]]]]; done. }
  assert (string_of_list_ascii
            (py_slice file_name (find file_name "_"%char + 1)
               (find file_name "."%char))
          = string_of_list_ascii name) as Hname.
  { f_equal. unfold find.
    unfold file_name at 2. rewrite find_from_first by done.
    replace file_name with ((kind ++ "_"%char :: name) ++ "."%char :: ext)
      at 2 by (by rewrite <- app_assoc).
    rewrite find_from_first.
    2:{ rewrite elem_of_app, elem_of_cons. intros [?|[?|?]]; done. }
    rewrite py_slice_forward.
    2:{ rewrite length_app. simpl length. lia. }
    unfold file_name. rewrite !length_app. simpl length. rewrite length_app.
    simpl length.
    replace (Z.to_nat (0 + Z.of_nat (length kind) + 1))
      with (length (kind ++ ["_"%char])) by (rewrite length_app; simpl; lia).
    replace (kind ++ "_"%char :: name ++ "."%char :: ext)
      with ((kind ++ ["_"%char]) ++ name ++ "."%char :: ext)
      by (by rewrite <- app_assoc).
    rewrite drop_app_length.
    replace (Z.to_nat _) with (length name)
      by (rewrite ?length_app; simpl; lia).
    by rewrite take_app_length. }
  destruct (basename_of_path dir file_name Hslash) as [E1 E2].
  unfold sensor_name. rewrite !list_ascii_of_string_of_list_ascii.
  rewrite E1, E2. done.
Qed.

(** X24. For a file name without a dot (and without an underscore)
    the stop index of the slice is -1: the sensor's name is the file
    name without its last character. *)
Theorem sensor_name_without_dot (file_name : list ascii) :
  "/"%char ∉ file_name → "."%char ∉ file_name → "_"%char ∉ file_name →
  sensor_name (string_of_list_ascii file_name)
  = string_of_list_ascii (take (length file_name - 1) file_name).
Proof.
  intros Hs Hd Hu. unfold sensor_name.
  rewrite list_ascii_of_string_of_list_ascii.
  rewrite (proj2 (basename_of_path [] file_name Hs)).
  unfold find. rewrite !find_from_absent by done. f_equal.
  unfold py_slice, slice_bound. simpl.
  rewrite Z.min_l by lia. simpl. f_equal. lia.
Qed.

Lemma sensor_name_of_path_witness :
  sensor_name "data/1_accelerometer.csv" = "accelerometer"%string ∧
  sensor_name "1_accelerometer.csv" = "accelerometer"%string.
Proof.
  apply (sensor_name_of_path (list_ascii_of_string "data")
           (list_ascii_of_string "1") (list_ascii_of_string "accelerometer")
           (list_ascii_of_string "csv"));
    vm_compute; intros H; repeat (apply elem_of_cons in H as [H|H]; [done|]);
    by apply elem_of_nil in H.
Defined.

Lemma sensor_name_without_dot_witness :
  sensor_name "gyroscope" = "gyroscop"%string.
Proof.
  apply (sensor_name_without_dot (list_ascii_of_string "gyroscope"));
    vm_compute; intros H; repeat (apply elem_of_cons in H as [H|H]; [done|]);
    by apply elem_of_nil in H.
Defined.
